(** * Recommenders: the BPR deep-dive notebook and its AzureML CI workflows

    Two artefacts of the repository are embedded here.

    - [Workflow]: the GitHub Actions workflows [azureml-tests] (the reusable
      test workflow) and [azureml-gpu-nightly], as records transcribed from
      their YAML, together with the part of the Actions expression language
      and of the runner that their [if:] conditions and [${{ }}]
      substitutions rely on.
    - [Notebook]: the cells of [cornac_bpr_deep_dive.ipynb] as functions on
      the kernel namespace, every call that leaves the notebook being
      recorded in a trace. *)

From Stdlib Require Import ZArith QArith Ascii String DecimalString DecimalZ DecimalPos.
From stdpp Require Import gmap strings list.

Open Scope string_scope.

(** ** Strings shared by both parts *)

Module Text.

(** ASCII lower-casing, used by the case-insensitive string functions of
    the Actions expression language. *)
Definition lower_ascii (c : ascii) : ascii :=
  let n := N_of_ascii c in
  if ((65 <=? n) && (n <=? 90))%N then ascii_of_N (n + 32) else c.

Fixpoint lower (s : string) : string :=
  match s with
  | EmptyString => EmptyString
  | String c t => String (lower_ascii c) (lower t)
  end.

(** [is_substring needle hay]: [needle] occurs in [hay]. *)
Fixpoint is_substring (needle hay : string) : bool :=
  String.prefix needle hay ||
  match hay with
  | EmptyString => false
  | String _ t => is_substring needle t
  end.

(** Shell parameter expansion [${VAR#prefix}]: the prefix is removed when
    the value starts with it and the value is left alone otherwise. *)
Fixpoint strip_prefix (p s : string) : option string :=
  match p, s with
  | EmptyString, _ => Some s
  | String a p', String b s' =>
      if Ascii.eqb a b then strip_prefix p' s' else None
  | String _ _, EmptyString => None
  end.

Definition remove_prefix (p s : string) : string :=
  default s (strip_prefix p s).

(** A text between double quotes, as it stands in a YAML scalar or a
    shell word. *)
Definition dquote : string := String (ascii_of_N 34) EmptyString.

Definition quoted (s : string) : string := dquote ++ s ++ dquote.

(** Decimal rendering of an integer, as a process writes its exit code. *)
Definition of_Z (z : Z) : string := NilZero.string_of_int (Z.to_int z).

Definition newline : string := String (ascii_of_N 10) EmptyString.

Definition is_digit (c : ascii) : bool :=
  let n := N_of_ascii c in ((48 <=? n) && (n <=? 57))%N.

Definition is_letter (c : ascii) : bool :=
  let n := N_of_ascii c in
  ((65 <=? n) && (n <=? 90) || (97 <=? n) && (n <=? 122))%N.

(** Tab, line feed, vertical tab, form feed, carriage return, space. *)
Definition is_space (c : ascii) : bool :=
  let n := N_of_ascii c in ((9 <=? n) && (n <=? 13) || (n =? 32))%N.

Fixpoint trim_left (s : string) : string :=
  match s with
  | String c t => if is_space c then trim_left t else s
  | EmptyString => EmptyString
  end.

Fixpoint trim_right (s : string) : string :=
  match s with
  | String c t =>
      match trim_right t with
      | EmptyString => if is_space c then EmptyString else String c EmptyString
      | t' => String c t'
      end
  | EmptyString => EmptyString
  end.

(** The text without the white space at its two ends. *)
Definition trim (s : string) : string := trim_right (trim_left s).

(** The longest run of digits a text starts with, and the rest. *)
Fixpoint span_digits (s : string) : string * string :=
  match s with
  | String c t =>
      if is_digit c then let '(d, r) := span_digits t in (String c d, r)
      else (EmptyString, s)
  | EmptyString => (EmptyString, EmptyString)
  end.

Fixpoint space_free (s : string) : bool :=
  match s with
  | String c t => negb (is_space c) && space_free t
  | EmptyString => true
  end.

Fixpoint digit_free (s : string) : bool :=
  match s with
  | String c t => negb (is_digit c) && digit_free t
  | EmptyString => true
  end.

Fixpoint has_letter (s : string) : bool :=
  match s with
  | String c t => is_letter c || has_letter t
  | EmptyString => false
  end.

(** [strip_suffix x s]: [s] without its ending [x], when it ends so. *)
Definition strip_suffix (x s : string) : option string :=
  let n := (String.length s - String.length x)%nat in
  if (String.length x <=? String.length s)%nat && String.eqb (String.substring n (String.length x) s) x
  then Some (String.substring 0 n s) else None.

End Text.

(** ** Filter patterns of workflow triggers *)

Module Glob.

(** The patterns that filter branches and paths: [*] matches any run of
    characters without a slash, [**] any run of characters, and [**/] any
    run of whole directories, none included. *)
Inductive token := Char (c : ascii) | Star | Globstar | GlobstarSlash.

Fixpoint parse (p : string) : list token :=
  match p with
  | String "*" (String "*" (String "/" q)) => GlobstarSlash :: parse q
  | String "*" (String "*" q) => Globstar :: parse q
  | String "*" q => Star :: parse q
  | String c q => Char c :: parse q
  | EmptyString => []
  end.

Definition slash (c : ascii) : bool := Ascii.eqb c "/".

Section Loops.
Variable rest : string -> bool.      (* the rest of the pattern *)

Fixpoint star (s : string) : bool :=
  rest s ||
  match s with
  | String d s' => negb (slash d) && star s'
  | EmptyString => false
  end.

Fixpoint any (s : string) : bool :=
  rest s ||
  match s with
  | String _ s' => any s'
  | EmptyString => false
  end.

Fixpoint dirs (s : string) : bool :=
  match s with
  | String d s' => (slash d && rest s') || dirs s'
  | EmptyString => false
  end.
End Loops.

Fixpoint matches (p : list token) : string -> bool :=
  match p with
  | [] => fun s => String.eqb "" s
  | Char c :: p' =>
      fun s => match s with
               | String d s' => Ascii.eqb c d && matches p' s'
               | EmptyString => false
               end
  | Star :: p' => star (matches p')
  | Globstar :: p' => any (matches p')
  | GlobstarSlash :: p' => fun s => matches p' s || dirs (matches p') s
  end.

Definition glob (p s : string) : bool := matches (parse p) s.

(** A list of patterns selects a path when the last pattern that matches
    it is not negated by a leading [!]. *)
Definition selects (patterns : list string) (path : string) : bool :=
  fold_left
    (fun acc p =>
       match p with
       | String "!" q => if glob q path then false else acc
       | _ => if glob p path then true else acc
       end)
    patterns false.

(** The pattern of a literal text. *)
Fixpoint chars (s : string) : list token :=
  match s with
  | EmptyString => []
  | String c t => Char c :: chars t
  end.

Fixpoint ends_with (suffix s : string) : bool :=
  String.eqb suffix s ||
  match s with
  | String _ t => ends_with suffix t
  | EmptyString => false
  end.

End Glob.

(** ** GitHub Actions workflows *)

Module Workflow.

(** *** The expression language of [${{ }}] and [if:] *)

(** Numbers are IEEE double-precision values. A finite one is kept as the
    rational it denotes, so the sign of a zero is not kept; [NaN] is what
    a string that is not a number coerces to. *)
Inductive number := NaN | Infinity (negative : bool) | Finite (q : Q).

Definition Int (z : Z) : number := Finite (inject_Z z).

Inductive value :=
| VNull
| VBool (b : bool)
| VNum (n : number)
| VStr (s : string).

Inductive context := Env | Secrets | Inputs | Matrix | Github.

Inductive status_fn := Success | Failure | Always | Cancelled.

Inductive expr :=
| Lit (v : value)
| Ctx (c : context) (key : string)      (* env.K, secrets.K, inputs.K, matrix.K, github.K *)
| StepOut (id out : string)             (* steps.ID.outputs.OUT *)
| NeedsOut (job out : string)           (* needs.JOB.outputs.OUT *)
| JoinMatrix (sep : string)             (* join(matrix.*, SEP) *)
| Contains (search item : expr)
| Ne (a b : expr)
| And (a b : expr)
| Or (a b : expr)
| Status (f : status_fn).

(** The values an expression can look up while a job runs. [env] is the
    workflow-level [env:] block; [matrix] keeps the order of its axes. *)
Record contexts := {
  env : list (string * string);
  secrets : gmap string string;
  inputs : gmap string string;
  matrix : list (string * string);
  github : gmap string string;
  needs : gmap (string * string) string;
}.

Fixpoint assoc (k : string) (l : list (string * string)) : option string :=
  match l with
  | [] => None
  | (k', v) :: l' => if String.eqb k k' then Some v else assoc k l'
  end.

Definition of_lookup (o : option string) : value :=
  match o with Some s => VStr s | None => VNull end.

(** *** Numbers and their texts *)

(** [n / (d * base ^ e)] as a fraction of two integers. *)
Definition scaled (base n d e : Z) : Z * Z :=
  if (0 <=? e)%Z then (n, d * base ^ e)%Z else (n * base ^ (- e), d)%Z.

(** The integer nearest to [a / b], a tie going to the even one. *)
Definition nearest_even (a b : Z) : Z :=
  let k := (a / b)%Z in
  match (2 * (a mod b) ?= b)%Z with
  | Lt => k
  | Gt => (k + 1)%Z
  | Eq => if Z.even k then k else (k + 1)%Z
  end.

(** [m * 2 ^ e] as a rational. *)
Definition dyadic (m e : Z) : Q :=
  Qred (Qmake (m * 2 ^ Z.max e 0) (Z.to_pos (2 ^ Z.max (- e) 0))).

(** The double nearest to a rational: 53 significant bits, the last place
    never below [2 ^ -1074], and infinite from [2 ^ 1024] on. *)
Definition binary64 (q : Q) : number :=
  let n := Z.abs (Qnum q) in
  let d := Z.pos (Qden q) in
  if (n =? 0)%Z then Finite 0 else
  let l := (Z.log2 n - Z.log2 d)%Z in
  let fl := let '(a, b) := scaled 2 n d l in if (b <=? a)%Z then l else (l - 1)%Z in
  let e := Z.max (fl - 52) (-1074) in
  let '(a, b) := scaled 2 n d e in
  let m := nearest_even a b in
  if (2 ^ (1024 - e) <=? m)%Z then Infinity (Qnum q <? 0)%Z
  else Finite (dyadic (Z.sgn (Qnum q) * m) e).

(** The number a run of decimal digits spells. *)
Definition natural (s : string) : Z :=
  match NilEmpty.uint_of_string s with
  | Some d => Z.of_uint d
  | None => 0%Z
  end.

Definition sign (s : string) : bool * string :=
  match s with
  | String c t =>
      if Ascii.eqb c "-" then (true, t)
      else if Ascii.eqb c "+" then (false, t)
      else (false, s)
  | EmptyString => (false, s)
  end.

(** The exponent part of a decimal numeral: nothing, or [e] or [E], a sign
    and digits. *)
Definition exponent (s : string) : option Z :=
  match s with
  | EmptyString => Some 0%Z
  | String c r =>
      if Ascii.eqb c "e" || Ascii.eqb c "E" then
        let '(neg, r1) := sign r in
        let '(ds, r2) := Text.span_digits r1 in
        if String.eqb ds "" || negb (String.eqb r2 "") then None
        else Some (if neg then - natural ds else natural ds)%Z
      else None
  end.

(** A decimal numeral: a sign, digits with a fraction, an exponent; the
    sign, the fraction and the exponent may be missing, but not every
    digit. The number formats of JSON are of this kind. *)
Definition decimal (s : string) : option Q :=
  let '(neg, u) := sign s in
  let '(ip, r1) := Text.span_digits u in
  let '(fp, r2) := match r1 with
                   | String c r =>
                       if Ascii.eqb c "." then Text.span_digits r else (EmptyString, r1)
                   | EmptyString => (EmptyString, r1)
                   end in
  if String.eqb (ip ++ fp) "" then None else
  match exponent r2 with
  | Some x =>
      let m := ((if neg then -1 else 1) * natural (ip ++ fp))%Z in
      let '(a, b) := scaled 10 m 1 (Z.of_nat (String.length fp) - x) in
      Some (Qmake a (Z.to_pos b))
  | None => None
  end.

Definition radix_digit (c : ascii) : option Z :=
  let n := Z.of_N (N_of_ascii c) in
  if Text.is_digit c then Some (n - 48)%Z
  else if ((97 <=? n) && (n <=? 102))%Z then Some (n - 87)%Z
  else if ((65 <=? n) && (n <=? 70))%Z then Some (n - 55)%Z
  else None.

Fixpoint radix_value (base : Z) (s : string) (acc : Z) : option Z :=
  match s with
  | EmptyString => Some acc
  | String c t =>
      match radix_digit c with
      | Some v => if (v <? base)%Z then radix_value base t (acc * base + v)%Z else None
      | None => None
      end
  end.

(** A 32-bit pattern read as a signed integer. *)
Definition int32 (v : Z) : option Z :=
  if (v <? 2 ^ 31)%Z then Some v
  else if (v <? 2 ^ 32)%Z then Some (v - 2 ^ 32)%Z
  else None.

(** [0x] and hexadecimal digits, or [0o] and octal digits, of 32 bits. *)
Definition radix (s : string) : option Z :=
  match s with
  | String a (String b (String c t)) =>
      if Ascii.eqb a "0" then
        if Ascii.eqb b "x" then radix_value 16 (String c t) 0 ≫= int32
        else if Ascii.eqb b "o" then radix_value 8 (String c t) 0 ≫= int32
        else None
      else None
  | _ => None
  end.

(** A string coerces to a number as the runner parses it: white space
    around it is dropped; the empty text is 0; a decimal numeral is
    rounded to a double; [0x...] and [0o...] are integers; [Infinity] and
    [-Infinity] are the infinities; any other text is [NaN]. *)
Definition parse_number (s : string) : number :=
  let t := Text.trim s in
  if String.eqb t "" then Int 0 else
  match decimal t with
  | Some q => binary64 q
  | None =>
      match radix t with
      | Some z => Int z
      | None =>
          if String.eqb t "Infinity" then Infinity false
          else if String.eqb t "-Infinity" then Infinity true
          else NaN
      end
  end.

Definition to_number (v : value) : number :=
  match v with
  | VNull => Int 0
  | VBool b => Int (if b then 1 else 0)
  | VNum n => n
  | VStr s => parse_number s
  end.

(** [floor (log10 (n / d))] for positive [n] and [d]: an estimate from the
    binary logarithms that is not above it, raised while a power of ten
    still fits. *)
Definition floor_log10 (n d : Z) : Z :=
  let l := (Z.log2 n - Z.log2 d)%Z in
  let x0 := ((if (1 <=? l)%Z then (l - 1) * 30102 else (l - 1) * 30103) / 100000 - 1)%Z in
  let fits x := let '(a, b) := scaled 10 n d (x + 1) in (b <=? a)%Z in
  let bump x := if fits x then (x + 1)%Z else x in
  bump (bump (bump x0)).

Fixpoint zeros (k : nat) : string :=
  match k with
  | O => EmptyString
  | S k' => String "0" (zeros k')
  end.

Fixpoint strip_zeros (k : nat) (m : Z) : Z :=
  match k with
  | O => m
  | S k' => if (m mod 10 =? 0)%Z then strip_zeros k' (m / 10)%Z else m
  end.

(** The digits of a positive integer without its final zeros. *)
Definition significant (m : Z) : string :=
  NilZero.string_of_uint (N.to_uint (Z.to_N (strip_zeros 15 m))).

(** A finite number in the general format with fifteen significant
    digits: plain notation when the decimal exponent is above -5 and
    below 15, and otherwise one digit, the others as a fraction, [E], the
    sign of the exponent and at least two digits of it. *)
Definition format_finite (q : Q) : string :=
  let n := Z.abs (Qnum q) in
  let d := Z.pos (Qden q) in
  if (n =? 0)%Z then "0" else
  let x0 := floor_log10 n d in
  let '(a, b) := scaled 10 n d (x0 - 14) in
  let m0 := nearest_even a b in
  let '(m, x) := if (10 ^ 15 <=? m0)%Z then ((m0 / 10)%Z, (x0 + 1)%Z) else (m0, x0) in
  let ds := significant m in
  let len := String.length ds in
  let body :=
    if ((-5 <? x) && (x <? 15))%Z then
      if (0 <=? x)%Z then
        let k := Z.to_nat (x + 1) in
        if (len <=? k)%nat then ds ++ zeros (k - len)
        else String.substring 0 k ds ++ "." ++ String.substring k (len - k) ds
      else "0." ++ zeros (Z.to_nat (- x - 1)) ++ ds
    else
      let xs := NilZero.string_of_uint (N.to_uint (Z.to_N (Z.abs x))) in
      String.substring 0 1 ds ++
      (if (1 <? len)%nat then "." ++ String.substring 1 (len - 1) ds else "") ++
      "E" ++ (if (x <? 0)%Z then "-" else "+") ++
      zeros (2 - String.length xs) ++ xs in
  ((if (Qnum q <? 0)%Z then "-" else "") ++ body)%string.

Definition to_string (v : value) : string :=
  match v with
  | VNull => ""
  | VBool b => if b then "true" else "false"
  | VNum NaN => "NaN"
  | VNum (Infinity negative) => if negative then "-Infinity" else "Infinity"
  | VNum (Finite q) => format_finite q
  | VStr s => s
  end.

Definition truthy (v : value) : bool :=
  match v with
  | VNull => false
  | VBool b => b
  | VNum NaN => false
  | VNum (Infinity _) => true
  | VNum (Finite q) => negb (Qeq_bool q 0)
  | VStr s => negb (String.eqb s "")
  end.

Definition number_eqb (a b : number) : bool :=
  match a, b with
  | Finite x, Finite y => Qeq_bool x y
  | Infinity x, Infinity y => Bool.eqb x y
  | _, _ => false
  end.

(** Loose equality: operands of different types are compared as numbers,
    strings are compared ignoring case, and [NaN] equals nothing. *)
Definition loose_eqb (a b : value) : bool :=
  match a, b with
  | VNull, VNull => true
  | VBool x, VBool y => Bool.eqb x y
  | VNum x, VNum y => number_eqb x y
  | VStr x, VStr y => String.eqb (Text.lower x) (Text.lower y)
  | _, _ => number_eqb (to_number a) (to_number b)
  end.

(** [contains(search, item)] on strings: a substring test that ignores
    case, both operands being cast to strings. *)
Definition contains (search item : value) : bool :=
  Text.is_substring (Text.lower (to_string item)) (Text.lower (to_string search)).

Definition join (sep : string) (l : list string) : string :=
  match l with
  | [] => ""
  | x :: l' => fold_left (fun acc y => acc ++ sep ++ y) l' x
  end.

Fixpoint uses_status (e : expr) : bool :=
  match e with
  | Status _ => true
  | Contains a b | Ne a b | And a b | Or a b => uses_status a || uses_status b
  | _ => false
  end.

(** Text with [${{ }}] holes. *)
Inductive piece := Txt (s : string) | Sub (e : expr).

#[global] Instance Q_eq_dec : EqDecision Q.
Proof. solve_decision. Defined.
#[global] Instance number_eq_dec : EqDecision number.
Proof. solve_decision. Defined.
#[global] Instance value_eq_dec : EqDecision value.
Proof. solve_decision. Defined.
#[global] Instance context_eq_dec : EqDecision context.
Proof. solve_decision. Defined.
#[global] Instance status_fn_eq_dec : EqDecision status_fn.
Proof. solve_decision. Defined.
#[global] Instance expr_eq_dec : EqDecision expr.
Proof. solve_decision. Defined.
#[global] Instance piece_eq_dec : EqDecision piece.
Proof. solve_decision. Defined.

Section Eval.
Variable cx : contexts.
Variable outs : gmap (string * string) string.   (* step outputs so far *)
Variable job_ok : bool.                           (* no step has failed so far *)

Fixpoint eval (e : expr) : value :=
  match e with
  | Lit v => v
  | Ctx Env k => of_lookup (assoc k (env cx))
  | Ctx Secrets k => of_lookup (secrets cx !! k)
  | Ctx Inputs k => of_lookup (inputs cx !! k)
  | Ctx Matrix k => of_lookup (assoc k (matrix cx))
  | Ctx Github k => of_lookup (github cx !! k)
  | StepOut i o => of_lookup (outs !! (i, o))
  | NeedsOut j o => of_lookup (needs cx !! (j, o))
  | JoinMatrix sep => VStr (join sep (map snd (matrix cx)))
  | Contains a b => VBool (contains (eval a) (eval b))
  | Ne a b => VBool (negb (loose_eqb (eval a) (eval b)))
  | And a b => let va := eval a in if truthy va then eval b else va
  | Or a b => let va := eval a in if truthy va then va else eval b
  | Status Success => VBool job_ok
  | Status Failure => VBool (negb job_ok)
  | Status Always => VBool true
  | Status Cancelled => VBool false
  end.

Definition render_piece (p : piece) : string :=
  match p with
  | Txt s => s
  | Sub e => to_string (eval e)
  end.

Definition render (t : list piece) : string :=
  fold_right (fun p acc => render_piece p ++ acc) "" t.
End Eval.

Definition template := list piece.

(** *** Workflow files as data *)

Record input_decl := {
  in_description : option string;
  in_default : option string;
  in_required : option bool;
  in_type : option string;
}.

Inductive trigger :=
| Schedule (crons : list string)
| Push (branches : list string) (paths : list string)
| WorkflowDispatch (dispatch_inputs : list (string * input_decl))
| WorkflowCall (call_inputs : list (string * input_decl)).

(** What a [run:] step captures into an output value. *)
Inductive capture :=
| CatFile (file : template)              (* $(cat FILE) *)
| StripVar (var prefix : string).        (* $(echo ${VAR#PREFIX}) *)

(** A [run:] command. A command line is kept as its words, in order, as
    they are written in the file (quotes included). *)
Inductive command :=
| Exec (argv : list template)
| SetOutput (out : string) (v : capture)  (* echo ::set-output name=OUT::V *)
| Script (lines : list template).         (* a multi-line script, kept as text *)

Inductive action :=
| Run (c : command)
| Uses (ref : string) (with_ : list (string * template)).

Record step := {
  step_name : string;
  step_id : option string;
  step_if : option expr;
  step_shell : option string;
  step_act : action;
}.

Inductive axis :=
| Values (vs : list string)
| FromJSON (e : expr).

Record job := {
  job_id : string;
  job_needs : list string;
  job_name : option template;
  runs_on : string;
  timeout_minutes : option Z;
  permissions : list (string * string);
  max_parallel : option Z;
  strategy_matrix : list (string * axis);
  steps : list step;
  job_outputs : list (string * template);
}.

Record workflow := {
  wf_name : string;
  wf_on : list trigger;
  wf_env : list (string * string);
  jobs : list job;
}.

Definition w (s : string) : template := [Txt s].

Definition uses (n ref : string) (with_ : list (string * template)) : step :=
  {| step_name := n; step_id := None; step_if := None; step_shell := None;
     step_act := Uses ref with_ |}.

Definition run (n : string) (c : command) : step :=
  {| step_name := n; step_id := None; step_if := None; step_shell := None;
     step_act := Run c |}.

(** *** [azureml-tests]: the reusable test workflow *)

Definition required_string (r : bool) : input_decl :=
  {| in_description := None; in_default := None;
     in_required := Some r; in_type := Some "string" |}.

Definition submit_script : string :=
  "tests/ci/azureml_tests/submit_groupwise_azureml_pytest.py".

(** The words the three submission commands share: [cluster] is the
    [env] key after [--clustername], [deps] the words between the
    [--testlogs] argument and [--testkind]. *)
Definition submit_argv (cluster : string) (deps : list template) : list template :=
  [ w "python"; w submit_script; w "--clustername"; [Sub (Ctx Env cluster)];
    w "--subid"; [Sub (Ctx Secrets "AZUREML_TEST_SUBID")];
    w "--reponame"; w (Text.quoted "recommenders");
    w "--branch"; [Sub (StepOut "extract_branch" "branch")];
    w "--rg"; [Sub (Ctx Env "RG")]; w "--wsname"; [Sub (Ctx Env "WS")];
    w "--expname"; [Sub (Ctx Inputs "EXP_NAME"); Txt "_"; Sub (Ctx Matrix "test-group")];
    w "--testlogs"; [Sub (Ctx Env "TEST_LOGS_PATH")] ]
  ++ deps ++
  [ w "--testkind"; [Sub (Ctx Inputs "TEST_KIND")];
    w "--conda_pkg_python"; [Sub (Ctx Matrix "python-version")];
    w "--testgroup"; [Sub (Ctx Matrix "test-group")] ].

Definition submit (n keyword cluster : string) (deps : list template) : step :=
  {| step_name := n; step_id := None;
     step_if := Some (Contains (Ctx Matrix "test-group") (Lit (VStr keyword)));
     step_shell := None;
     step_act := Run (Exec (submit_argv cluster deps)) |}.

Definition get_test_groups : job :=
  {| job_id := "get-test-groups";
     job_needs := [];
     job_name := None;
     runs_on := "ubuntu-latest";
     timeout_minutes := None;
     permissions := [];
     max_parallel := None;
     strategy_matrix := [];
     steps :=
       [ uses "Check out repository code" "actions/checkout@v2" [];
         {| step_name := "Get test group names";
            step_id := Some "get_test_groups";
            step_if := None;
            step_shell := None;
            step_act := Run (Script
              [ [Txt "if [[ "; Sub (Ctx Inputs "TEST_KIND"); Txt " == ";
                 Txt (Text.quoted "nightly"); Txt " ]]; then"];
                [Txt "  test_groups_str=$(python -c 'from tests.ci.azureml_tests.test_groups import nightly_test_groups; print([t for t in nightly_test_groups.keys() if ";
                 Txt Text.dquote; Sub (Ctx Inputs "TEST_ENV"); Txt Text.dquote;
                 Txt " in t])')"];
                w "else";
                w "  test_groups_str=$(python -c 'from tests.ci.azureml_tests.test_groups import unit_test_groups; print(list(unit_test_groups.keys()))')";
                w "fi";
                w "echo ::set-output name=test_groups::$test_groups_str" ]) |} ];
     job_outputs :=
       [ ("test_groups", [Sub (StepOut "get_test_groups" "test_groups")]) ] |}.

(** The steps of [execute-tests], in three runs: what prepares the
    runner, the three submissions, and what reports the outcome. *)
Definition setup_steps : list step :=
  [ uses "Check out repository code" "actions/checkout@v2" [];
    uses "Setup python" "actions/setup-python@v2" [("python-version", w "3.8")];
    run "Install azureml-core and azure-cli on a GitHub hosted server"
      (Exec [w "pip"; w "install"; w "azureml-core"; w "azure-cli"]);
    uses "Log in to Azure" "azure/login@v1"
      [("creds", [Sub (Ctx Secrets "AZUREML_TEST_CREDENTIALS")])];
    run "Install wheel package" (Exec [w "pip"; w "install"; w "wheel"]);
    run "Create wheel from setup.py" (Exec [w "python"; w "setup.py"; w "bdist_wheel"]);
    {| step_name := "Extract branch name";
       step_id := Some "extract_branch";
       step_if := None;
       step_shell := Some "bash";
       step_act := Run (SetOutput "branch" (StripVar "GITHUB_REF" "refs/heads/")) |} ].

Definition submit_cpu : step :=
  submit "Submit CPU tests to AzureML" "cpu" "CPU_CLUSTER_NAME" [].

Definition submit_gpu : step :=
  submit "Submit GPU tests to AzureML" "gpu" "GPU_CLUSTER_NAME"
    [w "--add_gpu_dependencies"].

Definition submit_spark : step :=
  submit "Submit PySpark tests to AzureML" "spark" "CPU_CLUSTER_NAME"
    [w "--add_spark_dependencies"].

Definition submit_steps : list step := [submit_cpu; submit_gpu; submit_spark].

Definition print_test_logs : step :=
  run "Print test logs" (Exec [w "cat"; [Sub (Ctx Env "TEST_LOGS_PATH")]]).

Definition get_exit_status : step :=
  {| step_name := "Get exit status";
     step_id := Some "exit_status";
     step_if := None;
     step_shell := None;
     step_act := Run (SetOutput "code" (CatFile [Sub (Ctx Env "PYTEST_EXIT_CODE")])) |}.

Definition check_success_failure : step :=
  {| step_name := "Check Success/Failure";
     step_id := None;
     step_if := Some (Ne (StepOut "exit_status" "code") (Lit (VNum (Int 0))));
     step_shell := None;
     step_act := Uses "actions/github-script@v3"
       [("script", w ("core.setFailed('All tests did not pass!')" ++ Text.newline))] |}.

Definition report_steps : list step :=
  [print_test_logs; get_exit_status; check_success_failure].

Definition execute_tests : job :=
  {| job_id := "execute-tests";
     job_needs := ["get-test-groups"];
     job_name := Some [Sub (JoinMatrix ", ")];
     runs_on := "ubuntu-latest";
     timeout_minutes := None;
     permissions := [];
     max_parallel := None;
     strategy_matrix :=
       [ ("python-version",
          Values [Text.quoted "python=3.7"; Text.quoted "python=3.8";
                  Text.quoted "python=3.9"]);
         ("test-group", FromJSON (NeedsOut "get-test-groups" "test_groups")) ];
     steps := setup_steps ++ submit_steps ++ report_steps;
     job_outputs := [] |}.

Definition azureml_tests : workflow :=
  {| wf_name := "azureml-tests";
     wf_on :=
       [ WorkflowCall
           [ ("EXP_NAME", required_string true);
             ("TEST_KIND", required_string true);
             ("TEST_ENV", required_string false) ] ];
     wf_env :=
       [ ("CPU_CLUSTER_NAME", "cpu-cluster");
         ("GPU_CLUSTER_NAME", "gpu-cluster");
         ("RG", "recommenders_project_resources");
         ("WS", "azureml-test-workspace");
         ("TEST_LOGS_PATH", Text.quoted "test_logs.log");
         ("PYTEST_EXIT_CODE", "pytest_exit_code.log") ];
     jobs := [get_test_groups; execute_tests] |}.

(** *** [azureml-gpu-nightly] *)

Definition azureml_gpu_nightly : workflow :=
  {| wf_name := "azureml-gpu-nightly";
     wf_on :=
       [ Schedule ["0 0 */5 * *"];
         Push ["staging"]
           [ "examples/**"; "!examples/**/*.md";
             "recommenders/**"; "!recommenders/**/*.md";
             "tests/**"; "!tests/**/*.md";
             "setup.py" ];
         WorkflowDispatch
           [ ("tags",
              {| in_description := Some "Tags to label this manual run (optional)";
                 in_default := Some "Manual trigger";
                 in_required := None;
                 in_type := None |}) ];
         WorkflowCall [] ];
     wf_env := [];
     jobs :=
       [ {| job_id := "get-test-groups";
            job_needs := [];
            job_name := None;
            runs_on := "ubuntu-24.04";
            timeout_minutes := None;
            permissions := [];
            max_parallel := None;
            strategy_matrix := [];
            steps :=
              [ uses "Check out repository code" "actions/checkout@v4" [];
                {| step_name := "Get test group names";
                   step_id := Some "get_test_groups";
                   step_if := None;
                   step_shell := None;
                   step_act := Uses "./.github/actions/get-test-groups"
                     [("TEST_KIND", w "nightly"); ("TEST_ENV", w "gpu")] |};
                {| step_name := "Print test group names";
                   step_id := None;
                   step_if := None;
                   step_shell := Some "bash";
                   step_act := Run (Exec
                     [w "echo"; [Sub (StepOut "get_test_groups" "test_groups")]]) |} ];
            job_outputs :=
              [ ("test_groups", [Sub (StepOut "get_test_groups" "test_groups")]) ] |};
         {| job_id := "execute-tests";
            job_needs := ["get-test-groups"];
            job_name := Some [Sub (JoinMatrix ", ")];
            runs_on := "ubuntu-24.04";
            timeout_minutes := Some 240%Z;
            permissions := [("id-token", "write")];
            max_parallel := Some 100%Z;
            strategy_matrix :=
              [ ("python-version", Values ["3.8"; "3.9"; "3.10"; "3.11"]);
                ("test-group", FromJSON (NeedsOut "get-test-groups" "test_groups")) ];
            steps :=
              [ uses "Check out repository code" "actions/checkout@v4" [];
                {| step_name := "Execute tests";
                   step_id := Some "execute_tests";
                   step_if := None;
                   step_shell := None;
                   step_act := Uses "./.github/actions/azureml-test"
                     [ ("EXP_NAME",
                        [ Txt "recommenders-nightly-"; Sub (Ctx Matrix "test-group");
                          Txt "-python"; Sub (Ctx Matrix "python-version");
                          Txt "-"; Sub (Ctx Github "ref") ]);
                       ("ENV_NAME",
                        [ Txt "recommenders-"; Sub (Ctx Github "sha");
                          Txt "-python"; Sub (Ctx Matrix "python-version");
                          Sub (Or (And (Contains (Ctx Matrix "test-group") (Lit (VStr "gpu")))
                                       (Lit (VStr "-gpu")))
                                  (Lit (VStr "")));
                          Sub (Or (And (Contains (Ctx Matrix "test-group") (Lit (VStr "spark")))
                                       (Lit (VStr "-spark")))
                                  (Lit (VStr ""))) ]);
                       ("TEST_KIND", w "nightly");
                       ("AZUREML_TEST_UMI_CLIENT_ID",
                        [Sub (Ctx Secrets "AZUREML_TEST_UMI_CLIENT_ID")]);
                       ("AZUREML_TEST_UMI_TENANT_ID",
                        [Sub (Ctx Secrets "AZUREML_TEST_UMI_TENANT_ID")]);
                       ("AZUREML_TEST_UMI_SUB_ID",
                        [Sub (Ctx Secrets "AZUREML_TEST_UMI_SUB_ID")]);
                       ("AZUREML_TEST_SUBID", [Sub (Ctx Secrets "AZUREML_TEST_SUBID")]);
                       ("PYTHON_VERSION", [Sub (Ctx Matrix "python-version")]);
                       ("TEST_GROUP", [Sub (Ctx Matrix "test-group")]) ] |} ];
            job_outputs := [] |} ] |}.

(** *** Reading a workflow file *)

(** The argument text of a script that is one [core.setFailed(...)] call,
    the white space around the call aside. *)
Definition set_failed_arg (script : string) : option string :=
  match Text.strip_prefix "core.setFailed(" (Text.trim script) with
  | Some rest => Text.strip_suffix ")" rest
  | None => None
  end.

Fixpoint with_input (k : string) (l : list (string * template)) : option template :=
  match l with
  | [] => None
  | (k', t) :: l' => if String.eqb k k' then Some t else with_input k l'
  end.

Definition github_script (ref : string) : bool :=
  String.prefix "actions/github-script@" ref.

Inductive trigger_kind := schedule | push | workflow_dispatch | workflow_call.

Definition kind_of (t : trigger) : trigger_kind :=
  match t with
  | Schedule _ => schedule
  | Push _ _ => push
  | WorkflowDispatch _ => workflow_dispatch
  | WorkflowCall _ => workflow_call
  end.

(** What can start a workflow. *)
Inductive event :=
| Tick (cron : string)                          (* a time the cron line denotes *)
| Pushed (branch : string) (changed : list string)
| Dispatched (given : list (string * string))   (* a manual run *)
| Called.                                       (* a call from another workflow *)

(** A push starts the workflow when its branch matches a branch pattern
    and, where paths are listed, one changed file is selected by them. *)
Definition fires (t : trigger) (e : event) : bool :=
  match t, e with
  | Schedule crons, Tick c => existsb (String.eqb c) crons
  | Push branches paths, Pushed b changed =>
      existsb (fun p => Glob.glob p b) branches &&
      match paths with
      | [] => true
      | _ => existsb (Glob.selects paths) changed
      end
  | WorkflowDispatch _, Dispatched _ => true
  | WorkflowCall _, Called => true
  | _, _ => false
  end.

Definition triggered (wf : workflow) (e : event) : bool :=
  existsb (fun t => fires t e) (wf_on wf).

(** The code paths of the repository: a file under one of the three
    source directories that is not a Markdown file, or [setup.py]. *)
Definition code_path (f : string) : bool :=
  String.eqb "setup.py" f ||
  existsb
    (fun dir => match Text.strip_prefix dir f with
                | Some rest => negb (Glob.ends_with ".md" rest)
                | None => false
                end)
    ["examples/"; "recommenders/"; "tests/"].

(** An input is optional unless it is declared [required: true]. *)
Definition optional (d : input_decl) : bool :=
  match in_required d with
  | Some true => false
  | _ => true
  end.

Definition all_steps (wf : workflow) : list step := flat_map steps (jobs wf).

Definition argv_of (s : step) : list template :=
  match step_act s with
  | Run (Exec argv) => argv
  | _ => []
  end.

(** A test-submission step runs [python] on the submission script. *)
Definition is_submission (s : step) : bool :=
  match argv_of s with
  | a :: b :: _ => bool_decide (a = w "python") && bool_decide (b = w submit_script)
  | _ => false
  end.

(** The word that follows the option [flag] on a command line. *)
Fixpoint arg_of (flag : string) (argv : list template) : option template :=
  match argv with
  | [] => None
  | a :: rest => if bool_decide (a = w flag) then head rest else arg_of flag rest
  end.

Definition literal (t : template) : option string :=
  match t with
  | [Txt s] => Some s
  | _ => None
  end.

(** The literal words of a command line that start with [--add_]. *)
Definition dependency_flags (s : step) : list string :=
  List.filter (String.prefix "--add_") (omap literal (argv_of s)).

(** A step handles failure explicitly when its [if:] asks for the job
    status or when it runs a script through github-script. *)
Definition handles_failure (s : step) : bool :=
  match step_if s with
  | Some e => uses_status e
  | None => false
  end ||
  match step_act s with
  | Uses ref _ => github_script ref
  | Run _ => false
  end.

(** *** Running a job

    What the workflow file does not fix is supplied by a [runner]: whether
    the process or action of a step succeeds, the text of a file (as
    [$(cat FILE)] yields it, without its final newline; the empty text
    when the file is missing), the runner's environment variables and the
    outputs a free-form script sets. *)
Record runner := {
  exit_ok : string -> bool;
  read_file : string -> string;
  getenv : string -> string;
  script_outputs : string -> list (string * string);
}.

Record state := {
  outputs : gmap (string * string) string;
  ok : bool;                                 (* no step has failed so far *)
  ran : list string;                         (* names of the steps that ran *)
  commands : list (string * list string);    (* command lines executed, by step *)
  failures : list string;                    (* arguments of core.setFailed calls *)
}.

Definition init : state :=
  {| outputs := ∅; ok := true; ran := []; commands := []; failures := [] |}.

Definition set_outputs (i : option string) (kvs : list (string * string))
    (o : gmap (string * string) string) : gmap (string * string) string :=
  match i with
  | None => o
  | Some i => fold_left (fun m kv => <[(i, kv.1) := kv.2]> m) kvs o
  end.

Section Run.
Variable r : runner.
Variable cx : contexts.

(** A step without a status function in its [if:] runs only while the
    job has not failed: the implicit [success()]. *)
Definition step_enabled (st : state) (s : step) : bool :=
  match step_if s with
  | None => ok st
  | Some e =>
      (uses_status e || ok st) && truthy (eval cx (outputs st) (ok st) e)
  end.

Definition capture_value (st : state) (v : capture) : string :=
  match v with
  | CatFile f => read_file r (render cx (outputs st) (ok st) f)
  | StripVar x p => Text.remove_prefix p (getenv r x)
  end.

(** A github-script step whose script is a [core.setFailed] call marks
    the run as failed, with that call's argument as the message. *)
Definition set_failed_call (st : state) (ref : string)
    (with_ : list (string * template)) : option string :=
  if github_script ref then
    match with_input "script" with_ with
    | Some t => set_failed_arg (render cx (outputs st) (ok st) t)
    | None => None
    end
  else None.

Definition exec_step (st : state) (s : step) : state :=
  let n := step_name s in
  let rendered := render cx (outputs st) (ok st) in
  match step_act s with
  | Run (Exec argv) =>
      {| outputs := outputs st;
         ok := ok st && exit_ok r n;
         ran := ran st ++ [n];
         commands := commands st ++ [(n, map rendered argv)];
         failures := failures st |}
  | Run (SetOutput o v) =>
      {| outputs := set_outputs (step_id s) [(o, capture_value st v)] (outputs st);
         ok := ok st && exit_ok r n;
         ran := ran st ++ [n];
         commands := commands st;
         failures := failures st |}
  | Run (Script _) =>
      {| outputs := set_outputs (step_id s) (script_outputs r n) (outputs st);
         ok := ok st && exit_ok r n;
         ran := ran st ++ [n];
         commands := commands st;
         failures := failures st |}
  | Uses ref with_ =>
      match set_failed_call st ref with_ with
      | Some msg =>
          {| outputs := outputs st;
             ok := false;
             ran := ran st ++ [n];
             commands := commands st;
             failures := failures st ++ [msg] |}
      | None =>
          {| outputs := outputs st;
             ok := ok st && exit_ok r n;
             ran := ran st ++ [n];
             commands := commands st;
             failures := failures st |}
      end
  end.

Definition run_step (st : state) (s : step) : state :=
  if step_enabled st s then exec_step st s else st.

Definition run_job (j : job) : state := fold_left run_step (steps j) init.
End Run.

(** The contexts of a job of [wf]: the workflow's [env:] block and what
    the caller, the matrix and the platform supply. *)
Definition job_contexts (wf : workflow) (sec inp : gmap string string)
    (mat : list (string * string)) (gh : gmap string string)
    (nd : gmap (string * string) string) : contexts :=
  {| env := wf_env wf; secrets := sec; inputs := inp; matrix := mat;
     github := gh; needs := nd |}.

(** Every process and action the job starts exits successfully. *)
Definition all_succeed (r : runner) : Prop := forall n, exit_ok r n = true.

(** The word that follows [flag] on an executed command line. *)
Fixpoint flag_value (flag : string) (argv : list string) : option string :=
  match argv with
  | [] => None
  | a :: rest => if String.eqb a flag then head rest else flag_value flag rest
  end.

(** The executed command lines that run the submission script. *)
Definition submitted (st : state) : list (string * list string) :=
  List.filter
    (fun c => match c.2 with
              | a :: b :: _ => String.eqb a "python" && String.eqb b submit_script
              | _ => false
              end)
    (commands st).

End Workflow.

(** ** The notebook [cornac_bpr_deep_dive.ipynb] *)

Module Notebook.

(** *** Data *)

(** An interaction table: named columns over rows of user, item and a
    number (the rating, or the predicted score). Index labels are not
    modelled; a row is identified by its occurrence in the list. *)
Definition row : Type := Z * Z * Q.

Record DataFrame := { columns : list string; rows : list row }.

(** The callables the notebook uses, under their Python names. *)
Module Fn.
Inductive callable :=
| print
| load_pandas_df
| python_random_split
| head
| itertuples
| from_uir
| BPR
| fit
| recommend_k_items
| map
| ndcg_at_k
| precision_at_k
| recall_at_k
| Timer
| store_metadata.
End Fn.

Section Kernel.
(** The objects of the modelling library are opaque to the notebook. *)
Context {Dataset Model : Type}.

(** What the notebook imports and does not define: the constants and
    functions of [recommenders] and Cornac, each taking the arguments
    the notebook passes. *)
Record Library := {
  SEED : Z;
  sys_version : string;
  cornac_version : string;
  load_pandas_df : string -> list string -> DataFrame;
  python_random_split : DataFrame -> Q -> DataFrame * DataFrame;
  from_uir : list row -> Z -> Dataset;
  num_users : Dataset -> Z;
  num_items : Dataset -> Z;
  BPR : Z -> Z -> Q -> Q -> bool -> Z -> Model;
  fit : Model -> Dataset -> Model;
  recommend_k_items : Model -> DataFrame -> string -> string -> bool -> DataFrame;
  map : DataFrame -> DataFrame -> string -> Z -> Q;
  ndcg_at_k : DataFrame -> DataFrame -> string -> Z -> Q;
  precision_at_k : DataFrame -> DataFrame -> string -> Z -> Q;
  recall_at_k : DataFrame -> DataFrame -> string -> Z -> Q;
}.

Inductive value :=
| VNone
| VBool (b : bool)
| VInt (z : Z)
| VFloat (q : Q)
| VStr (s : string)
| VStrs (l : list string)               (* a list of strings *)
| VCat (a b : value)                    (* a formatted string, by its pieces *)
| VPair (a b : value)                   (* a tuple of two *)
| VFrame (df : DataFrame)
| VRows (l : list row)                  (* an iterator of tuples *)
| VDataset (d : Dataset)
| VModel (m : Model)
| VTimer (n : nat)
| VModule (path : string)
| VCallable (f : Fn.callable)
| VBound (f : Fn.callable) (self : value).   (* a method bound to its object *)

Record event := {
  fn : Fn.callable;
  self : option value;
  args : list value;
  kwargs : list (string * value);
  result : value;
}.

Inductive error :=
| NameError (n : string)
| AttributeError (a : string)
| TypeError (f : Fn.callable)
| ValueError.

(** The state of the kernel: the global namespace and the calls made so
    far, oldest first. *)
Record kernel := { globals : gmap string value; trace : list event }.

Definition M (A : Type) : Type := kernel -> error + (A * kernel).

Definition ret {A} (a : A) : M A := fun k => inr (a, k).

Definition bind {A B} (m : M A) (f : A -> M B) : M B :=
  fun k => match m k with
           | inl e => inl e
           | inr (a, k') => f a k'
           end.

Definition raise {A} (e : error) : M A := fun _ => inl e.

#[local] Instance M_ret : MRet M := @ret.
#[local] Instance M_bind : MBind M := fun A B f m => bind m f.

Variable lib : Library.

(** Reading a name that no executed cell has bound is a [NameError]. *)
Definition load (n : string) : M value :=
  fun k => match globals k !! n with
           | Some v => inr (v, k)
           | None => inl (NameError n)
           end.

Definition store (n : string) (v : value) : M unit :=
  fun k => inr (tt, {| globals := <[n := v]> (globals k); trace := trace k |}).

Definition log (e : event) : M unit :=
  fun k => inr (tt, {| globals := globals k; trace := trace k ++ [e] |}).

Definition calls_so_far : M nat := fun k => inr (length (trace k), k).

Fixpoint keyword (n : string) (kw : list (string * value)) : option value :=
  match kw with
  | [] => None
  | (n', v) :: kw' => if String.eqb n n' then Some v else keyword n kw'
  end.

(** Attribute access [v.a]. *)
Definition getattr (v : value) (a : string) : M value :=
  match v with
  | VModule "sys" =>
      if String.eqb a "version" then ret (VStr (sys_version lib))
      else raise (AttributeError a)
  | VModule "cornac" =>
      if String.eqb a "__version__" then ret (VStr (cornac_version lib))
      else if String.eqb a "data" then ret (VModule "cornac.data")
      else raise (AttributeError a)
  | VModule "cornac.data" =>
      if String.eqb a "Dataset" then ret (VModule "cornac.data.Dataset")
      else raise (AttributeError a)
  | VModule "cornac.data.Dataset" =>
      if String.eqb a "from_uir" then ret (VCallable Fn.from_uir)
      else raise (AttributeError a)
  | VModule "movielens" =>
      if String.eqb a "load_pandas_df" then ret (VCallable Fn.load_pandas_df)
      else raise (AttributeError a)
  | VFrame _ =>
      if String.eqb a "head" then ret (VBound Fn.head v)
      else if String.eqb a "itertuples" then ret (VBound Fn.itertuples v)
      else raise (AttributeError a)
  | VDataset d =>
      if String.eqb a "num_users" then ret (VInt (num_users lib d))
      else if String.eqb a "num_items" then ret (VInt (num_items lib d))
      else raise (AttributeError a)
  | VModel _ =>
      if String.eqb a "fit" then ret (VBound Fn.fit v)
      else if String.eqb a "recommend_k_items" then ret (VBound Fn.recommend_k_items v)
      else raise (AttributeError a)
  | _ => raise (AttributeError a)
  end.

(** Modelled from the spec: the evaluation functions of
    [recommenders.evaluation.python_evaluation] are not under src/, only
    their calls are. As the spec has it, each accepts the ground-truth
    table and the predicted table plus a cutoff rank [k] and returns a
    scalar metric value. *)
Definition metric (f : DataFrame -> DataFrame -> string -> Z -> Q)
    (args : list value) (kw : list (string * value)) : option value :=
  match args, keyword "col_prediction" kw, keyword "k" kw with
  | [VFrame rating_true; VFrame rating_pred], Some (VStr col), Some (VInt k) =>
      Some (VFloat (f rating_true rating_pred col k))
  | _, _, _ => None
  end.

(** What a call returns, [None] when the arguments do not fit. [n] is
    the number of calls made before this one. *)
Definition apply (n : nat) (f : Fn.callable) (self : option value)
    (args : list value) (kw : list (string * value)) : option value :=
  match f, self, args with
  | Fn.print, None, _ => Some VNone
  | Fn.load_pandas_df, None, [] =>
      match keyword "size" kw, keyword "header" kw with
      | Some (VStr size), Some (VStrs header) =>
          Some (VFrame (load_pandas_df lib size header))
      | _, _ => None
      end
  | Fn.python_random_split, None, [VFrame data; VFloat ratio] =>
      let r := python_random_split lib data ratio in
      Some (VPair (VFrame r.1) (VFrame r.2))
  | Fn.head, Some (VFrame df), [] =>
      Some (VFrame {| columns := columns df; rows := firstn 5 (rows df) |})
  | Fn.itertuples, Some (VFrame df), [] =>
      match keyword "index" kw with
      | Some (VBool false) => Some (VRows (rows df))
      | _ => None
      end
  | Fn.from_uir, None, [VRows l] =>
      match keyword "seed" kw with
      | Some (VInt seed) => Some (VDataset (from_uir lib l seed))
      | _ => None
      end
  | Fn.BPR, None, [] =>
      match keyword "k" kw, keyword "max_iter" kw, keyword "learning_rate" kw,
            keyword "lambda_reg" kw, keyword "verbose" kw, keyword "seed" kw with
      | Some (VInt k), Some (VInt max_iter), Some (VFloat learning_rate),
        Some (VFloat lambda_reg), Some (VBool verbose), Some (VInt seed) =>
          Some (VModel (BPR lib k max_iter learning_rate lambda_reg verbose seed))
      | _, _, _, _, _, _ => None
      end
  | Fn.fit, Some (VModel m), [VDataset d] => Some (VModel (fit lib m d))
  | Fn.recommend_k_items, Some (VModel m), [VFrame data] =>
      match keyword "col_user" kw, keyword "col_item" kw, keyword "remove_seen" kw with
      | Some (VStr col_user), Some (VStr col_item), Some (VBool remove_seen) =>
          Some (VFrame (recommend_k_items lib m data col_user col_item remove_seen))
      | _, _, _ => None
      end
  | Fn.map, None, _ => metric (map lib) args kw
  | Fn.ndcg_at_k, None, _ => metric (ndcg_at_k lib) args kw
  | Fn.precision_at_k, None, _ => metric (precision_at_k lib) args kw
  | Fn.recall_at_k, None, _ => metric (recall_at_k lib) args kw
  | Fn.Timer, None, [] => Some (VTimer n)
  | Fn.store_metadata, None, [VStr _; _] => Some VNone
  | _, _, _ => None
  end.

(** A call [callee(args, kwargs)]: the callee must be callable, the call
    is recorded with its result. *)
Definition call (callee : value) (args : list value) (kw : list (string * value))
    : M value :=
  match callee with
  | VCallable f =>
      n ← calls_so_far;
      match apply n f None args kw with
      | Some v =>
          log {| fn := f; self := None; args := args; kwargs := kw; result := v |};;
          ret v
      | None => raise (TypeError f)
      end
  | VBound f obj =>
      n ← calls_so_far;
      match apply n f (Some obj) args kw with
      | Some v =>
          log {| fn := f; self := Some obj; args := args; kwargs := kw; result := v |};;
          ret v
      | None => raise (TypeError f)
      end
  | _ => raise ValueError
  end.

(** The format specification [:f] of an f-string accepts numbers only. *)
Definition format_f (v : value) : M value :=
  match v with
  | VInt _ | VFloat _ => ret v
  | _ => raise ValueError
  end.

(** Unpacking [a, b = v]. *)
Definition unpack2 (v : value) : M (value * value) :=
  match v with
  | VPair a b => ret (a, b)
  | _ => raise ValueError
  end.

(** *** The code cells, in the order of the file *)

Definition tab : string := String (ascii_of_N 9) EmptyString.
Definition newline : string := String (ascii_of_N 10) EmptyString.

(** [print(x)] *)
Definition print (x : value) : M unit :=
  p ← load "print"; call p [x] [];; mret tt.

(** Cell 1: imports, then the two version lines. *)
Definition cell_imports : M unit :=
  store "sys" (VModule "sys");;
  store "cornac" (VModule "cornac");;
  store "movielens" (VModule "movielens");;
  store "python_random_split" (VCallable Fn.python_random_split);;
  store "map" (VCallable Fn.map);;
  store "ndcg_at_k" (VCallable Fn.ndcg_at_k);;
  store "precision_at_k" (VCallable Fn.precision_at_k);;
  store "recall_at_k" (VCallable Fn.recall_at_k);;
  store "BPR" (VCallable Fn.BPR);;
  store "Timer" (VCallable Fn.Timer);;
  store "SEED" (VInt (SEED lib));;
  store "store_metadata" (VCallable Fn.store_metadata);;
  sys ← load "sys"; v ← getattr sys "version";
  print (VCat (VStr "System version: ") v);;
  cornac ← load "cornac"; v ← getattr cornac "__version__";
  print (VCat (VStr "Cornac version: ") v).

(** Cell 2, tagged [parameters]. *)
Definition cell_parameters : M unit :=
  store "MOVIELENS_DATA_SIZE" (VStr "100k");;
  store "TOP_K" (VInt 10);;
  store "NUM_FACTORS" (VInt 200);;
  store "NUM_EPOCHS" (VInt 100).

(** Cell 3: [data = movielens.load_pandas_df(size=..., header=[...])],
    then [data.head()]. *)
Definition cell_load : M unit :=
  movielens ← load "movielens"; f ← getattr movielens "load_pandas_df";
  size ← load "MOVIELENS_DATA_SIZE";
  data ← call f [] [("size", size); ("header", VStrs ["userID"; "itemID"; "rating"])];
  store "data" data;;
  data ← load "data"; h ← getattr data "head"; call h [] [];; mret tt.

(** Cell 4: [train, test = python_random_split(data, 0.75)]. *)
Definition cell_split : M unit :=
  f ← load "python_random_split"; data ← load "data";
  r ← call f [data; VFloat 0.75] [];
  '(train, test) ← unpack2 r;
  store "train" train;; store "test" test.

(** Cell 5: [train_set = cornac.data.Dataset.from_uir(
    train.itertuples(index=False), seed=SEED)], then the two counts. *)
Definition cell_dataset : M unit :=
  cornac ← load "cornac"; data ← getattr cornac "data";
  cls ← getattr data "Dataset"; f ← getattr cls "from_uir";
  train ← load "train"; it ← getattr train "itertuples";
  tuples ← call it [] [("index", VBool false)];
  seed ← load "SEED";
  train_set ← call f [tuples] [("seed", seed)];
  store "train_set" train_set;;
  train_set ← load "train_set"; n ← getattr train_set "num_users";
  print (VCat (VStr "Number of users: ") n);;
  train_set ← load "train_set"; n ← getattr train_set "num_items";
  print (VCat (VStr "Number of items: ") n).

(** Cell 6: the model and its hyperparameters. *)
Definition cell_model : M unit :=
  f ← load "BPR";
  k ← load "NUM_FACTORS"; max_iter ← load "NUM_EPOCHS"; seed ← load "SEED";
  bpr ← call f []
    [ ("k", k); ("max_iter", max_iter);
      ("learning_rate", VFloat 0.01); ("lambda_reg", VFloat 0.001);
      ("verbose", VBool true); ("seed", seed) ];
  store "bpr" bpr.

(** Cell 7: [with Timer() as t: bpr.fit(train_set)]. [fit] updates the
    model object in place: afterwards the name denotes the fitted
    model. *)
Definition cell_fit : M unit :=
  timer ← load "Timer"; t ← call timer [] []; store "t" t;;
  bpr ← load "bpr"; f ← getattr bpr "fit"; train_set ← load "train_set";
  fitted ← call f [train_set] [];
  store "bpr" fitted;;
  t ← load "t";
  print (VCat (VStr "Took ") (VCat t (VStr " seconds for training."))).

(** Cell 8: [all_predictions = bpr.recommend_k_items(train,
    col_user='userID', col_item='itemID', remove_seen=True)], timed. *)
Definition cell_predict : M unit :=
  timer ← load "Timer"; t ← call timer [] []; store "t" t;;
  bpr ← load "bpr"; f ← getattr bpr "recommend_k_items"; train ← load "train";
  all_predictions ← call f [train]
    [ ("col_user", VStr "userID"); ("col_item", VStr "itemID");
      ("remove_seen", VBool true) ];
  store "all_predictions" all_predictions;;
  t ← load "t";
  print (VCat (VStr "Took ") (VCat t (VStr " seconds for prediction."))).

(** Cell 9: [all_predictions.head()]. *)
Definition cell_show : M unit :=
  p ← load "all_predictions"; h ← getattr p "head"; call h [] [];; mret tt.

(** One line of cell 10: [target = metric(test, all_predictions,
    col_prediction='prediction', k=TOP_K)]. *)
Definition evaluate (target metric : string) : M unit :=
  f ← load metric; test ← load "test"; p ← load "all_predictions";
  k ← load "TOP_K";
  v ← call f [test; p] [("col_prediction", VStr "prediction"); ("k", k)];
  store target v.

(** Cell 10: the four metrics, then one [print] of six lines. *)
Definition cell_evaluate : M unit :=
  evaluate "eval_map" "map";;
  evaluate "eval_ndcg" "ndcg_at_k";;
  evaluate "eval_precision" "precision_at_k";;
  evaluate "eval_recall" "recall_at_k";;
  p ← load "print";
  top_k ← load "TOP_K";
  eval_map ← load "eval_map"; eval_map ← format_f eval_map;
  eval_ndcg ← load "eval_ndcg"; eval_ndcg ← format_f eval_ndcg;
  eval_precision ← load "eval_precision"; eval_precision ← format_f eval_precision;
  eval_recall ← load "eval_recall"; eval_recall ← format_f eval_recall;
  call p
    [ VStr "Model:";
      VCat (VStr ("Top K:" ++ tab ++ tab ++ " ")) top_k;
      VCat (VStr ("MAP:" ++ tab ++ tab ++ " ")) eval_map;
      VCat (VStr ("NDCG:" ++ tab ++ tab ++ " ")) eval_ndcg;
      VCat (VStr ("Precision@K:" ++ tab ++ " ")) eval_precision;
      VCat (VStr ("Recall@K:" ++ tab ++ " ")) eval_recall ]
    [("sep", VStr newline)];;
  mret tt.

(** One line of cell 11: [store_metadata(key, name)]. *)
Definition record (key name : string) : M unit :=
  f ← load "store_metadata"; v ← load name;
  call f [VStr key; v] [];; mret tt.

(** Cell 11: the results recorded for the tests. *)
Definition cell_record : M unit :=
  record "map" "eval_map";;
  record "ndcg" "eval_ndcg";;
  record "precision" "eval_precision";;
  record "recall" "eval_recall".

Definition cells : list (M unit) :=
  [ cell_imports; cell_parameters; cell_load; cell_split; cell_dataset;
    cell_model; cell_fit; cell_predict; cell_show; cell_evaluate; cell_record ].

(** A fresh kernel knows the builtins only. *)
Definition fresh : kernel :=
  {| globals := {[ "print" := VCallable Fn.print ]}; trace := [] |}.

Fixpoint run_cells (cs : list (M unit)) : M unit :=
  match cs with
  | [] => mret tt
  | c :: cs' => c;; run_cells cs'
  end.

(** Run All on a fresh kernel. *)
Definition run_all : error + kernel :=
  match run_cells cells fresh with
  | inl e => inl e
  | inr (_, k) => inr k
  end.
End Kernel.

Arguments Library : clear implicits.
Arguments value : clear implicits.
Arguments event : clear implicits.
Arguments kernel : clear implicits.

(** *** Reading a trace *)

#[global] Instance callable_eq_dec : EqDecision Fn.callable.
Proof. solve_decision. Defined.

(** The steps of the pipeline; printing, [head] and the timers belong to
    none of them. *)
Inductive stage :=
| Load | Split | Construct | Instantiate | Fit | Predict | Score | Emit.

Definition stage_of (f : Fn.callable) : option stage :=
  match f with
  | Fn.load_pandas_df => Some Load
  | Fn.python_random_split => Some Split
  | Fn.itertuples | Fn.from_uir => Some Construct
  | Fn.BPR => Some Instantiate
  | Fn.fit => Some Fit
  | Fn.recommend_k_items => Some Predict
  | Fn.map | Fn.ndcg_at_k | Fn.precision_at_k | Fn.recall_at_k => Some Score
  | Fn.store_metadata => Some Emit
  | Fn.print | Fn.head | Fn.Timer => None
  end.

Section Trace.
Context {Dataset Model : Type}.
Abbreviation value := (value Dataset Model).
Abbreviation event := (event Dataset Model).

Definition calls_of (f : Fn.callable) (tr : list event) : list event :=
  List.filter (fun e => bool_decide (fn e = f)) tr.

Definition is_metric (f : Fn.callable) : bool :=
  match f with
  | Fn.map | Fn.ndcg_at_k | Fn.precision_at_k | Fn.recall_at_k => true
  | _ => false
  end.

(** The values a compound value is made of. *)
Fixpoint parts (v : value) : list value :=
  match v with
  | VCat a b | VPair a b => parts a ++ parts b
  | _ => [v]
  end.

(** Tables, iterators, datasets, models and timers: the values that
    only a call can produce. *)
Definition is_object (v : value) : bool :=
  match v with
  | VFrame _ | VRows _ | VDataset _ | VModel _ | VTimer _ => true
  | _ => false
  end.

Definition consumed (e : event) : list value :=
  List.filter is_object
    (flat_map parts (option_list (self e) ++ args e ++ List.map snd (kwargs e))).

Definition produced (e : event) : list value :=
  List.filter is_object (parts (result e)).

(** Every object a call consumes was produced by an earlier call. *)
Fixpoint feeds_forward (known : list value) (tr : list event) : Prop :=
  match tr with
  | [] => True
  | e :: tr' =>
      Forall (fun v => In v known) (consumed e) /\
      feeds_forward (known ++ produced e) tr'
  end.
End Trace.

End Notebook.

(** ** Callers of the reusable workflow, and what its first job selects *)

Module Calls.
Import Workflow.

(** A job that calls a reusable workflow. *)
Record call_job := {
  call_id : string;
  call_uses : string;
  call_with : list (string * template);
  secrets_inherit : bool;
}.

(** The job of [azureml-spark-nightly]. *)
Definition spark_nightly_tests : call_job :=
  {| call_id := "spark-nightly-tests";
     call_uses := "./.github/workflows/azureml-template.yml";
     call_with :=
       [ ("EXP_NAME", w "nightly_tests");
         ("TEST_KIND", w "nightly");
         ("TEST_ENV", w "spark") ];
     secrets_inherit := true |}.

(** The [inputs] context the called workflow sees. *)
Definition passed (cx : contexts) (c : call_job) : gmap string string :=
  list_to_map (List.map (fun kv => (kv.1, render cx ∅ true kv.2)) (call_with c)).

(** The declared inputs of a reusable workflow. *)
Definition declared (wf : workflow) : list (string * input_decl) :=
  flat_map (fun t => match t with WorkflowCall ins => ins | _ => [] end) (wf_on wf).

(** A call fits a workflow when it passes every required input and only
    declared ones. *)
Definition fits (wf : workflow) (c : call_job) : bool :=
  forallb (fun d => optional d.2 || existsb (fun kv => String.eqb kv.1 d.1) (call_with c))
    (declared wf) &&
  forallb (fun kv => existsb (fun d => String.eqb kv.1 d.1) (declared wf)) (call_with c).

(** The [Get test group names] script splices its two inputs into shell
    and Python text; only letters, digits and [_] are sure to stay one
    word there. *)
Definition plain_char (c : ascii) : bool :=
  let n := N_of_ascii c in
  ((48 <=? n) && (n <=? 57) || (65 <=? n) && (n <=? 90) ||
   (97 <=? n) && (n <=? 122) || (n =? 95))%N.

Fixpoint plain (s : string) : bool :=
  match s with
  | EmptyString => true
  | String c t => plain_char c && plain t
  end.

(** The groups the script prints: for a nightly run the keys of
    [nightly_test_groups] in which the text of TEST_ENV occurs, otherwise
    all the keys of [unit_test_groups]. The two tables are imported from
    the test package and are taken as they come. The test [[ KIND ==
    nightly ]] needs a word for KIND; inputs that are not plain are not
    modelled. *)
Definition test_groups (inp : gmap string string) (nightly unit : list string)
    : option (list string) :=
  let kind := default "" (inp !! "TEST_KIND") in
  let env := default "" (inp !! "TEST_ENV") in
  if plain kind && negb (String.eqb kind "") && plain env then
    Some (if String.eqb kind "nightly"
          then List.filter (Text.is_substring env) nightly
          else unit)
  else None.

(** The input of an action step, by the names of the step and the input. *)
Definition action_input (wf : workflow) (n key : string) : option template :=
  match List.find (fun s => String.eqb (step_name s) n) (all_steps wf) with
  | Some s => match step_act s with
              | Uses _ with_ => with_input key with_
              | Run _ => None
              end
  | None => None
  end.

(** The value of a job output once the job has run. *)
Definition job_output (r : runner) (cx : contexts) (j : job) (n : string)
    : option string :=
  let st := run_job r cx j in
  option_map (render cx (outputs st) (ok st)) (with_input n (job_outputs j)).

(** The expression that gives an axis of the matrix of a job. *)
Fixpoint axis_of (n : string) (m : list (string * axis)) : option axis :=
  match m with
  | [] => None
  | (n', a) :: m' => if String.eqb n n' then Some a else axis_of n m'
  end.

(** The test-submission steps are the steps named so. *)
Definition submits (n : string) : bool := String.prefix "Submit " n.

(** The action a step calls, if it calls one. *)
Definition uses_of (s : step) : option string :=
  match step_act s with
  | Uses ref _ => Some ref
  | Run _ => None
  end.

(** Steps that run a command or an action and set no output. *)
Definition keeps_outputs (s : step) : bool :=
  match step_act s with
  | Run (Exec _) => true
  | Uses ref _ => negb (github_script ref)
  | _ => false
  end.

(** The step of [execute-tests] between the wheel and the submissions. *)
Definition extract_branch_name : step :=
  {| step_name := "Extract branch name";
     step_id := Some "extract_branch";
     step_if := None;
     step_shell := Some "bash";
     step_act := Run (SetOutput "branch" (StripVar "GITHUB_REF" "refs/heads/")) |}.

(** The words of a submission command once every expression is replaced:
    [cluster] is the cluster name, [deps] the dependency flag of the step. *)
Definition line (r : runner) (sec inp : gmap string string) (pv g cluster : string)
    (deps : list string) : list string :=
  [ "python"; submit_script; "--clustername"; cluster;
    "--subid"; to_string (of_lookup (sec !! "AZUREML_TEST_SUBID"));
    "--reponame"; Text.quoted "recommenders";
    "--branch"; Text.remove_prefix "refs/heads/" (getenv r "GITHUB_REF");
    "--rg"; "recommenders_project_resources";
    "--wsname"; "azureml-test-workspace";
    "--expname"; (to_string (of_lookup (inp !! "EXP_NAME")) ++ "_" ++ g)%string;
    "--testlogs"; Text.quoted "test_logs.log" ] ++
  deps ++
  [ "--testkind"; to_string (of_lookup (inp !! "TEST_KIND"));
    "--conda_pkg_python"; pv;
    "--testgroup"; g ].

End Calls.

(** ** Other ways to run the notebook *)

Module Runs.
Import Notebook.

Section Runs.
Context {Dataset Model : Type}.
Variable lib : Library Dataset Model.

(** The second code cell carries the tag [parameters]: a parameterised
    run executes, right after it, a cell that binds the four names again. *)
Definition injected (size : string) (top_k factors epochs : Z)
    : M (Dataset:=Dataset) (Model:=Model) unit :=
  bind (store "MOVIELENS_DATA_SIZE" (VStr size)) (fun _ =>
  bind (store "TOP_K" (VInt top_k)) (fun _ =>
  bind (store "NUM_FACTORS" (VInt factors)) (fun _ =>
  store "NUM_EPOCHS" (VInt epochs)))).

Definition run_with (size : string) (top_k factors epochs : Z)
    : error + kernel Dataset Model :=
  match run_cells
          (firstn 2 (cells lib) ++ injected size top_k factors epochs :: skipn 2 (cells lib))
          fresh with
  | inl e => inl e
  | inr (_, k) => inr k
  end.

(** Run All with the code cell of index [i] left out. *)
Definition run_without (i : nat) : error + kernel Dataset Model :=
  match run_cells (firstn i (cells lib) ++ skipn (S i) (cells lib)) fresh with
  | inl e => inl e
  | inr (_, k) => inr k
  end.

Definition failure {A} (x : error + A) : option error :=
  match x with
  | inl e => Some e
  | inr _ => None
  end.
End Runs.

End Runs.

(** * Facts *)

(** ** Texts *)

Module TextFacts.

Lemma append_nil_r (s : string) : (s ++ "")%string = s.
Proof.
  induction s as [|c s IH]; [reflexivity|].
  rewrite <- IH at 2. reflexivity.
Qed.

Lemma strip_prefix_cons a p b s :
  Text.strip_prefix (String a p) (String b s) =
  if Ascii.eqb a b then Text.strip_prefix p s else None.
Proof. reflexivity. Qed.

Lemma eqb_cons a p b s :
  String.eqb (String a p) (String b s) =
  if Ascii.eqb a b then String.eqb p s else false.
Proof. reflexivity. Qed.

End TextFacts.

(** ** Numbers *)

Module NumberFacts.
Import Workflow.

Lemma span_digits_uint d :
  Text.span_digits (NilEmpty.string_of_uint d) = (NilEmpty.string_of_uint d, "").
Proof. induction d; cbn; rewrite ?IHd; reflexivity. Qed.

Lemma trim_right_space_free s : Text.space_free s = true -> Text.trim_right s = s.
Proof.
  induction s as [|c t IH]; [reflexivity|]. cbn [Text.space_free Text.trim_right].
  intros H. apply andb_prop in H as [Hc Ht]. rewrite (IH Ht).
  apply negb_true_iff in Hc. rewrite Hc. now destruct t.
Qed.

Lemma trim_space_free s : Text.space_free s = true -> Text.trim s = s.
Proof.
  intros H. unfold Text.trim.
  replace (Text.trim_left s) with s; [now apply trim_right_space_free|].
  destruct s as [|c t]; [reflexivity|]. cbn in *.
  apply andb_prop in H as [Hc _]. apply negb_true_iff in Hc. now rewrite Hc.
Qed.

Lemma uint_space_free d : Text.space_free (NilEmpty.string_of_uint d) = true.
Proof. induction d; cbn; auto. Qed.

Lemma uint_nonempty d : d <> Decimal.Nil -> String.eqb (NilEmpty.string_of_uint d) "" = false.
Proof. destruct d; [congruence|..]; reflexivity. Qed.

Lemma sign_uint d : sign (NilEmpty.string_of_uint d) = (false, NilEmpty.string_of_uint d).
Proof. destruct d; reflexivity. Qed.

Lemma natural_uint d : natural (NilEmpty.string_of_uint d) = Z.of_uint d.
Proof. unfold natural. now rewrite NilEmpty.usu. Qed.

Lemma decimal_digits (neg : bool) d :
  d <> Decimal.Nil ->
  decimal ((if neg then "-" else "") ++ NilEmpty.string_of_uint d)%string =
  Some (Qmake ((if neg then -1 else 1) * Z.of_uint d)%Z 1).
Proof.
  intros Hd. unfold decimal.
  replace (sign ((if neg then "-" else "") ++ NilEmpty.string_of_uint d)%string)
    with (neg, NilEmpty.string_of_uint d)
    by (destruct neg; [reflexivity|symmetry; apply sign_uint]).
  rewrite span_digits_uint, TextFacts.append_nil_r, (uint_nonempty d Hd).
  cbn [exponent String.length Nat.sub Z.of_nat Z.sub scaled].
  now rewrite natural_uint.
Qed.

Lemma pow_log2_below n d :
  (0 < d)%Z -> (0 < n)%Z -> (1 <= Z.log2 n - Z.log2 d)%Z ->
  (d * 2 ^ (Z.log2 n - Z.log2 d - 1) <= n)%Z.
Proof.
  intros Hd Hn Hl.
  destruct (Z.log2_spec n Hn) as [Ln _]. destruct (Z.log2_spec d Hd) as [_ Ld].
  pose proof (Z.log2_nonneg d) as Pd.
  assert (E : (2 ^ Z.log2 n = 2 ^ Z.succ (Z.log2 d) * 2 ^ (Z.log2 n - Z.log2 d - 1))%Z).
  { rewrite <- Z.pow_add_r by lia. f_equal. lia. }
  assert (P : (0 < 2 ^ (Z.log2 n - Z.log2 d - 1))%Z) by (apply Z.pow_pos_nonneg; lia).
  nia.
Qed.

Lemma nearest_even_pos a b : (0 < b <= a)%Z -> (0 < nearest_even a b)%Z.
Proof.
  intros H. assert (0 < a / b)%Z by (apply Z.div_str_pos; lia).
  unfold nearest_even.
  destruct (2 * (a mod b) ?= b)%Z; [destruct (Z.even (a / b))|..]; lia.
Qed.

(** Rounding to a double sends no number of size 1 or more to 0. *)
Lemma binary64_nonzero q :
  (Z.pos (Qden q) <= Z.abs (Qnum q))%Z -> number_eqb (binary64 q) (Int 0) = false.
Proof.
  intros H. unfold binary64.
  set (n := Z.abs (Qnum q)) in *. set (d := Z.pos (Qden q)) in *.
  assert (Hd : (0 < d)%Z) by (subst d; lia).
  destruct (Z.eqb_spec n 0) as [E|_]; [lia|].
  set (l := (Z.log2 n - Z.log2 d)%Z).
  set (fl := let '(a, b) := scaled 2 n d l in if (b <=? a)%Z then l else (l - 1)%Z).
  assert (Hfl : (fl <= l)%Z).
  { subst fl. destruct (scaled 2 n d l) as [a b]. destruct (b <=? a)%Z; lia. }
  set (e := Z.max (fl - 52) (-1074)).
  destruct (scaled 2 n d e) as [a b] eqn:Es.
  assert (Hab : (0 < b <= a)%Z).
  { unfold scaled in Es. destruct (Z.leb_spec 0 e) as [He|He]; injection Es as <- <-.
    - assert (P : (0 < 2 ^ e)%Z) by (apply Z.pow_pos_nonneg; lia).
      split; [nia|].
      assert (Hl : (1 <= l)%Z) by lia.
      pose proof (pow_log2_below n d Hd ltac:(lia) Hl) as B. fold l in B.
      assert (M : (2 ^ e <= 2 ^ (l - 1))%Z) by (apply Z.pow_le_mono_r; lia).
      nia.
    - assert (P : (0 < 2 ^ (- e))%Z) by (apply Z.pow_pos_nonneg; lia).
      split; [lia|nia]. }
  pose proof (nearest_even_pos a b Hab) as Hm.
  destruct (2 ^ (1024 - e) <=? nearest_even a b)%Z; [reflexivity|].
  cbn [number_eqb Int]. unfold dyadic.
  destruct (Qeq_bool _ _) eqn:E; [|reflexivity].
  apply Qeq_bool_eq in E. rewrite Qred_correct in E. unfold Qeq in E. cbn in E.
  assert (P : (0 < 2 ^ Z.max e 0)%Z) by (apply Z.pow_pos_nonneg; lia).
  assert (S : Z.sgn (Qnum q) <> 0%Z) by (subst n; lia).
  nia.
Qed.

Lemma of_Z_pos p : Text.of_Z (Z.pos p) = NilEmpty.string_of_uint (Pos.to_uint p).
Proof.
  unfold Text.of_Z. cbn [Z.to_int NilZero.string_of_int NilZero.string_of_uint].
  pose proof (DecimalPos.Unsigned.to_uint_nonnil p) as H.
  now destruct (Pos.to_uint p).
Qed.

Lemma of_Z_neg p : Text.of_Z (Z.neg p) = String "-" (NilEmpty.string_of_uint (Pos.to_uint p)).
Proof.
  unfold Text.of_Z. cbn [Z.to_int NilZero.string_of_int NilZero.string_of_uint].
  pose proof (DecimalPos.Unsigned.to_uint_nonnil p) as H.
  now destruct (Pos.to_uint p).
Qed.

Lemma parse_digits (neg : bool) p :
  parse_number ((if neg then "-" else "") ++ NilEmpty.string_of_uint (Pos.to_uint p))%string =
  binary64 (Qmake ((if neg then -1 else 1) * Z.pos p)%Z 1).
Proof.
  pose proof (DecimalPos.Unsigned.to_uint_nonnil p) as Hd.
  unfold parse_number. rewrite trim_space_free.
  - rewrite (decimal_digits neg _ Hd).
    replace (Z.of_uint (Pos.to_uint p)) with (Z.pos p)
      by (unfold Z.of_uint; now rewrite DecimalPos.Unsigned.of_to).
    destruct neg, (Pos.to_uint p); try congruence; reflexivity.
  - destruct neg; [apply (uint_space_free (Pos.to_uint p))|apply uint_space_free].
Qed.

(** A decimal integer coerces to 0 exactly when it is 0. *)
Lemma parse_of_Z_zero z : number_eqb (parse_number (Text.of_Z z)) (Int 0) = (z =? 0)%Z.
Proof.
  destruct z as [|p|p]; [reflexivity|..].
  - pose proof (parse_digits false p) as E.
    change (parse_number (NilEmpty.string_of_uint (Pos.to_uint p)) =
            binary64 (Qmake (1 * Z.pos p) 1)) in E.
    rewrite of_Z_pos, E. apply binary64_nonzero. cbn. lia.
  - pose proof (parse_digits true p) as E.
    change (parse_number (String "-" (NilEmpty.string_of_uint (Pos.to_uint p))) =
            binary64 (Qmake (-1 * Z.pos p) 1)) in E.
    rewrite of_Z_neg, E. apply binary64_nonzero. cbn. lia.
Qed.

Lemma letter_no_space c : Text.is_letter c = true -> Text.is_space c = false.
Proof. destruct c as [[] [] [] [] [] [] [] []]; try reflexivity; discriminate. Qed.

Lemma digit_free_trim_left s :
  Text.digit_free s = true -> Text.digit_free (Text.trim_left s) = true.
Proof.
  induction s as [|c t IH]; [reflexivity|]. intros H. cbn [Text.trim_left].
  destruct (Text.is_space c); [|exact H].
  cbn in H. apply andb_prop in H as [_ H]. auto.
Qed.

Lemma digit_free_trim_right s :
  Text.digit_free s = true -> Text.digit_free (Text.trim_right s) = true.
Proof.
  induction s as [|c t IH]; [reflexivity|]. cbn [Text.digit_free Text.trim_right].
  intros H. apply andb_prop in H as [Hc Ht]. specialize (IH Ht).
  destruct (Text.trim_right t); [destruct (Text.is_space c)|]; cbn in *;
    rewrite ?Hc, ?IH; reflexivity.
Qed.

Lemma has_letter_trim_left s :
  Text.has_letter s = true -> Text.has_letter (Text.trim_left s) = true.
Proof.
  induction s as [|c t IH]; [discriminate|]. intros H. cbn [Text.trim_left].
  destruct (Text.is_space c) eqn:Ec; [|exact H].
  cbn in H. apply orb_prop in H as [H|H]; [|auto].
  apply letter_no_space in H. congruence.
Qed.

Lemma has_letter_trim_right s :
  Text.has_letter s = true -> Text.has_letter (Text.trim_right s) = true.
Proof.
  induction s as [|c t IH]; [discriminate|]. cbn [Text.has_letter Text.trim_right].
  intros H. apply orb_prop in H as [H|H].
  - rewrite (letter_no_space c H).
    destruct (Text.trim_right t); cbn; now rewrite H.
  - specialize (IH H). destruct (Text.trim_right t); [discriminate|].
    cbn in *. now rewrite IH, orb_true_r.
Qed.

Lemma span_digit_free s : Text.digit_free s = true -> Text.span_digits s = ("", s).
Proof.
  destruct s as [|c t]; [reflexivity|]. cbn. intros H.
  apply andb_prop in H as [H _]. apply negb_true_iff in H. now rewrite H.
Qed.

Lemma digit_free_sign s : Text.digit_free s = true -> Text.digit_free (sign s).2 = true.
Proof.
  destruct s as [|c t]; [reflexivity|]. intros H. unfold sign.
  assert (Ht : Text.digit_free t = true) by (cbn in H; now apply andb_prop in H as [_ H]).
  destruct (Ascii.eqb c "-"); [exact Ht|]. destruct (Ascii.eqb c "+"); [exact Ht|exact H].
Qed.

Lemma decimal_digit_free s : Text.digit_free s = true -> decimal s = None.
Proof.
  intros H. unfold decimal. pose proof (digit_free_sign s H) as Hu.
  destruct (sign s) as [neg u]. cbn [snd] in Hu.
  rewrite (span_digit_free u Hu).
  destruct u as [|c r]; [reflexivity|].
  destruct (Ascii.eqb c "."); [|reflexivity].
  cbn in Hu. apply andb_prop in Hu as [_ Hr]. now rewrite (span_digit_free r Hr).
Qed.

Lemma radix_digit_free s : Text.digit_free s = true -> radix s = None.
Proof.
  destruct s as [|a [|b [|c t]]]; try reflexivity. intros H. unfold radix.
  destruct (Ascii.eqb_spec a "0") as [->|_]; [discriminate|reflexivity].
Qed.

(** A text with a letter and no digit is no number, or an infinity. *)
Lemma parse_no_digit s :
  Text.digit_free s = true -> Text.has_letter s = true ->
  number_eqb (parse_number s) (Int 0) = false.
Proof.
  intros Hd Hl. unfold parse_number.
  assert (Hd' : Text.digit_free (Text.trim s) = true)
    by (apply digit_free_trim_right, digit_free_trim_left, Hd).
  assert (Hl' : Text.has_letter (Text.trim s) = true)
    by (apply has_letter_trim_right, has_letter_trim_left, Hl).
  rewrite (decimal_digit_free _ Hd'), (radix_digit_free _ Hd').
  destruct (Text.trim s) as [|c t]; [discriminate|].
  change (String.eqb (String c t) "") with false. cbv iota.
  destruct (String.eqb _ "Infinity"); [reflexivity|].
  destruct (String.eqb _ "-Infinity"); reflexivity.
Qed.
End NumberFacts.

(** ** Filter patterns *)

Module GlobFacts.
Import Glob.

Lemma matches_chars cs q : forall s,
  matches (chars cs ++ q) s =
  match Text.strip_prefix cs s with
  | Some rest => matches q rest
  | None => false
  end.
Proof.
  induction cs as [|c cs IH]; intros s; [now destruct s|].
  cbn [chars app matches Text.strip_prefix]. destruct s as [|d s]; [reflexivity|].
  destruct (Ascii.eqb c d); [apply IH|reflexivity].
Qed.

Lemma matches_literal cs : forall s, matches (chars cs) s = String.eqb cs s.
Proof.
  induction cs as [|c cs IH]; intros s; [reflexivity|].
  destruct s as [|d s]; [reflexivity|]. cbn [chars matches String.eqb].
  rewrite IH. now destruct (Ascii.eqb c d).
Qed.

Lemma any_true rest s : rest "" = true -> any rest s = true.
Proof.
  intros H. induction s as [|c s IH]; cbn [any]; [now rewrite H|].
  rewrite IH. apply orb_true_r.
Qed.

Lemma star_ext r1 r2 s : (forall x, r1 x = r2 x) -> star r1 s = star r2 s.
Proof. intros H. induction s as [|c s IH]; cbn [star]; now rewrite H, ?IH. Qed.

Lemma dirs_ext r1 r2 s : (forall x, r1 x = r2 x) -> dirs r1 s = dirs r2 s.
Proof. intros H. induction s as [|c s IH]; cbn [dirs]; now rewrite ?H, ?IH. Qed.

Lemma star_ends suffix s :
  star (String.eqb suffix) s = true -> ends_with suffix s = true.
Proof.
  induction s as [|c s IH]; cbn [star ends_with]; intros H.
  - now rewrite orb_false_r in H |- *.
  - apply orb_prop in H as [H|H]; [now rewrite H|].
    apply andb_prop in H as [_ H]. rewrite (IH H). apply orb_true_r.
Qed.

Lemma dirs_ends suffix s :
  dirs (star (String.eqb suffix)) s = true -> ends_with suffix s = true.
Proof.
  induction s as [|c s IH]; cbn [dirs ends_with]; [discriminate|]. intros H.
  apply orb_prop in H as [H|H].
  - apply andb_prop in H as [_ H]. rewrite (star_ends _ _ H). apply orb_true_r.
  - rewrite (IH H). apply orb_true_r.
Qed.

Lemma ends_star_or_dirs suffix s :
  ends_with suffix s = true ->
  star (String.eqb suffix) s = true \/ dirs (star (String.eqb suffix)) s = true.
Proof.
  induction s as [|c s IH]; cbn [ends_with]; intros H.
  - left. cbn [star]. now rewrite orb_false_r in H |- *.
  - apply orb_prop in H as [H|H].
    + left. cbn [star]. now rewrite H.
    + destruct (IH H) as [Hs|Hd].
      * destruct (slash c) eqn:Ec.
        -- right. cbn [dirs]. now rewrite Ec, Hs.
        -- left. cbn [star]. rewrite Ec, Hs. apply orb_true_r.
      * right. cbn [dirs]. rewrite Hd. apply orb_true_r.
Qed.

(** [**/*SUFFIX] matches exactly the paths that end with the suffix,
    at any depth. *)
Lemma matches_anywhere suffix s :
  matches (GlobstarSlash :: Star :: chars suffix) s = ends_with suffix s.
Proof.
  cbn [matches].
  rewrite (star_ext _ (String.eqb suffix) s (matches_literal suffix)).
  rewrite (dirs_ext _ (star (String.eqb suffix)) s
             (fun x => star_ext _ _ x (matches_literal suffix))).
  destruct (ends_with suffix s) eqn:E.
  - destruct (ends_star_or_dirs _ _ E) as [H|H]; rewrite H; [reflexivity|apply orb_true_r].
  - destruct (star (String.eqb suffix) s) eqn:Es.
    + now rewrite (star_ends _ _ Es) in E.
    + destruct (dirs (star (String.eqb suffix)) s) eqn:Ed; [|reflexivity].
      now rewrite (dirs_ends _ _ Ed) in E.
Qed.

(** [DIR**] matches exactly the paths that start with [DIR]. *)
Lemma glob_under dir s :
  matches (chars dir ++ [Globstar]) s =
  match Text.strip_prefix dir s with
  | Some _ => true
  | None => false
  end.
Proof.
  rewrite matches_chars. destruct (Text.strip_prefix dir s) as [rest|]; [|reflexivity].
  cbn [matches]. now rewrite any_true.
Qed.

(** [DIR**/*SUFFIX] matches the paths under [DIR] that end with the
    suffix. *)
Lemma glob_under_suffix dir suffix s :
  matches (chars dir ++ GlobstarSlash :: Star :: chars suffix) s =
  match Text.strip_prefix dir s with
  | Some rest => ends_with suffix rest
  | None => false
  end.
Proof.
  rewrite matches_chars. destruct (Text.strip_prefix dir s); [|reflexivity].
  apply matches_anywhere.
Qed.

End GlobFacts.

(** ** Workflows *)

Module TriggerFacts.
Import Workflow.

Definition nightly_paths : list string :=
  [ "examples/**"; "!examples/**/*.md";
    "recommenders/**"; "!recommenders/**/*.md";
    "tests/**"; "!tests/**/*.md";
    "setup.py" ].

Ltac closed_chars :=
  repeat match goal with
         | |- context [Ascii.eqb ?a ?b] =>
             let v := eval vm_compute in (Ascii.eqb a b) in
             lazymatch v with
             | true => change (Ascii.eqb a b) with true
             | false => change (Ascii.eqb a b) with false
             end
         end.

Ltac by_cases :=
  repeat match goal with
         | |- context [Text.strip_prefix ?a ?b] => destruct (Text.strip_prefix a b)
         | |- context [Glob.ends_with ?a ?b] => destruct (Glob.ends_with a b)
         | |- context [String.eqb ?a ?b] => destruct (String.eqb a b)
         end;
  reflexivity.

(** The path filter of the nightly workflow selects the code paths. *)
Lemma nightly_paths_select f : Glob.selects nightly_paths f = code_path f.
Proof.
  unfold Glob.selects, nightly_paths. cbn [fold_left]. cbv beta iota.
  change (Glob.glob "examples/**" f)
    with (Glob.matches (Glob.chars "examples/" ++ [Glob.Globstar]) f).
  change (Glob.glob "recommenders/**" f)
    with (Glob.matches (Glob.chars "recommenders/" ++ [Glob.Globstar]) f).
  change (Glob.glob "tests/**" f)
    with (Glob.matches (Glob.chars "tests/" ++ [Glob.Globstar]) f).
  change (Glob.glob "examples/**/*.md" f)
    with (Glob.matches (Glob.chars "examples/" ++
            Glob.GlobstarSlash :: Glob.Star :: Glob.chars ".md") f).
  change (Glob.glob "recommenders/**/*.md" f)
    with (Glob.matches (Glob.chars "recommenders/" ++
            Glob.GlobstarSlash :: Glob.Star :: Glob.chars ".md") f).
  change (Glob.glob "tests/**/*.md" f)
    with (Glob.matches (Glob.chars "tests/" ++
            Glob.GlobstarSlash :: Glob.Star :: Glob.chars ".md") f).
  change (Glob.glob "setup.py" f) with (Glob.matches (Glob.chars "setup.py") f).
  rewrite !GlobFacts.glob_under, !GlobFacts.glob_under_suffix, GlobFacts.matches_literal.
  unfold code_path. cbn [existsb].
  destruct f as [|c f]; [reflexivity|].
  rewrite !TextFacts.strip_prefix_cons, TextFacts.eqb_cons.
  destruct (Ascii.eqb_spec "e" c) as [<-|_]; [closed_chars; by_cases|].
  destruct (Ascii.eqb_spec "r" c) as [<-|_]; [closed_chars; by_cases|].
  destruct (Ascii.eqb_spec "t" c) as [<-|_]; [closed_chars; by_cases|].
  destruct (Ascii.eqb_spec "s" c) as [<-|_]; [closed_chars; by_cases|].
  reflexivity.
Qed.

Lemma glob_literal p b : Glob.parse p = Glob.chars p -> Glob.glob p b = String.eqb p b.
Proof. unfold Glob.glob. intros ->. apply GlobFacts.matches_literal. Qed.

(** C7: the nightly GPU workflow declares four triggers, one of each kind:
    the cron schedule [0 0 */5 * *], pushes to [staging] that change a code
    path, manual runs with an optional [tags] input, and calls from other
    workflows; nothing else starts it. *)
Theorem nightly_gpu_triggers :
  List.map kind_of (wf_on azureml_gpu_nightly) =
    [schedule; push; workflow_dispatch; workflow_call] /\
  (exists tags,
     wf_on azureml_gpu_nightly =
       [ Schedule ["0 0 */5 * *"];
         Push ["staging"] nightly_paths;
         WorkflowDispatch [("tags", tags)];
         WorkflowCall [] ] /\
     optional tags = true /\
     in_default tags = Some "Manual trigger") /\
  (forall e,
     triggered azureml_gpu_nightly e =
     match e with
     | Tick cron => String.eqb cron "0 0 */5 * *"
     | Pushed branch changed => String.eqb "staging" branch && existsb code_path changed
     | Dispatched _ => true
     | Called => true
     end).
Proof.
  split; [reflexivity|]. split; [eexists; repeat split; reflexivity|].
  intros [cron|branch changed|given|]; unfold triggered;
    cbn [wf_on azureml_gpu_nightly existsb fires orb]; try reflexivity.
  - now rewrite !orb_false_r.
  - rewrite !orb_false_r. rewrite (glob_literal "staging" branch eq_refl).
    f_equal. fold nightly_paths.
    induction changed as [|f l IH]; [reflexivity|].
    cbn [existsb]. now rewrite nightly_paths_select, IH.
Qed.

End TriggerFacts.

Module RunFacts.
Import Workflow.

Section Reliable.
Variable r : runner.
Variable cx : contexts.
Hypothesis Hr : all_succeed r.

(** While the job has not failed, a step runs when its condition holds. *)
Definition holds (o : gmap (string * string) string) (s : step) : bool :=
  match step_if s with
  | None => true
  | Some e => truthy (eval cx o true e)
  end.

Lemma step_enabled_ok st s :
  ok st = true -> step_enabled cx st s = holds (outputs st) s.
Proof.
  intros E. unfold step_enabled, holds. rewrite E.
  destruct (step_if s); [|reflexivity]. now rewrite orb_true_r.
Qed.

Lemma set_failed_call_none st ref with_ :
  github_script ref = false -> set_failed_call cx st ref with_ = None.
Proof. unfold set_failed_call. now intros ->. Qed.

(** A step that does not handle failure leaves a successful job
    successful, and records no failure. *)
Lemma run_step_keeps_ok st s :
  handles_failure s = false -> ok st = true ->
  ok (run_step r cx st s) = true /\
  failures (run_step r cx st s) = failures st.
Proof.
  intros Hs E. unfold run_step.
  destruct (step_enabled cx st s); [|now split].
  unfold exec_step. unfold handles_failure in Hs.
  apply orb_false_elim in Hs as [_ Hs].
  destruct (step_act s) as [[argv|o v|l]|ref with_];
    [| | |rewrite (set_failed_call_none st ref with_ Hs)];
    cbn; rewrite Hr, E; now split.
Qed.

Lemma run_steps_keep_ok ls : forall st,
  forallb (fun s => negb (handles_failure s)) ls = true -> ok st = true ->
  ok (fold_left (run_step r cx) ls st) = true /\
  failures (fold_left (run_step r cx) ls st) = failures st.
Proof.
  induction ls as [|s ls IH]; intros st Hls E; [now split|].
  cbn in Hls. apply andb_prop in Hls as [Hs Hls]. apply negb_true_iff in Hs.
  destruct (run_step_keeps_ok st s Hs E) as [E1 F1].
  cbn [fold_left]. destruct (IH _ Hls E1) as [E2 F2]. split; [exact E2|congruence].
Qed.

(** What a step adds to the executed command lines. *)
Definition contribution (o : gmap (string * string) string) (s : step)
    : list (string * list string) :=
  match step_act s with
  | Run (Exec argv) =>
      if holds o s then [(step_name s, map (render cx o true) argv)] else []
  | _ => []
  end.

Lemma run_step_commands st s :
  ok st = true ->
  commands (run_step r cx st s) = (commands st ++ contribution (outputs st) s)%list.
Proof.
  intros E. unfold run_step, contribution. rewrite (step_enabled_ok st s E).
  destruct (holds (outputs st) s) eqn:Eh.
  - unfold exec_step.
    destruct (step_act s) as [[argv|o v|l]|ref with_]; cbn; rewrite ?E, ?app_nil_r; try reflexivity.
    now destruct (set_failed_call cx st ref with_); cbn; rewrite ?app_nil_r.
  - destruct (step_act s) as [[argv|o v|l]|ref with_]; now rewrite app_nil_r.
Qed.

Section Summary.
Context {A : Type} (G : list (string * list string) -> list A) (F : step -> list A).
Hypothesis G_app : forall a b, G (a ++ b)%list = (G a ++ G b)%list.

Lemma run_steps_summary ls : forall st,
  ok st = true ->
  forallb (fun s => negb (handles_failure s)) ls = true ->
  Forall (fun s => forall o, G (contribution o s) = F s) ls ->
  G (commands (fold_left (run_step r cx) ls st)) = (G (commands st) ++ flat_map F ls)%list.
Proof.
  induction ls as [|s ls IH]; intros st E Hls HF; cbn [fold_left flat_map].
  - now rewrite app_nil_r.
  - cbn in Hls. apply andb_prop in Hls as [Hs Hls]. apply negb_true_iff in Hs.
    inversion HF as [|? ? Hs' HF']; subst.
    destruct (run_step_keeps_ok st s Hs E) as [E1 _].
    rewrite (IH _ E1 Hls HF'), (run_step_commands st s E), G_app, Hs'.
    now rewrite app_assoc.
Qed.
End Summary.

(** A failed job runs no step whose [if:] does not ask for the status. *)
Lemma run_step_skipped st s :
  ok st = false ->
  match step_if s with Some e => uses_status e | None => false end = false ->
  run_step r cx st s = st.
Proof.
  intros E Hs. unfold run_step, step_enabled. rewrite E.
  destruct (step_if s); [|reflexivity]. now rewrite Hs.
Qed.

Lemma run_steps_skipped ls : forall st,
  ok st = false ->
  forallb (fun s => negb match step_if s with Some e => uses_status e | None => false end)
    ls = true ->
  fold_left (run_step r cx) ls st = st.
Proof.
  induction ls as [|s ls IH]; intros st E H; [reflexivity|].
  cbn in H. apply andb_prop in H as [Hs H]. apply negb_true_iff in Hs.
  cbn [fold_left]. rewrite (run_step_skipped st s E Hs). now apply IH.
Qed.

(** Only a step that handles failure records one, whatever the steps do. *)
Lemma run_step_failures st s :
  handles_failure s = false -> failures (run_step r cx st s) = failures st.
Proof.
  intros Hs. unfold run_step. destruct (step_enabled cx st s); [|reflexivity].
  unfold exec_step. unfold handles_failure in Hs.
  apply orb_false_elim in Hs as [_ Hs].
  destruct (step_act s) as [[argv|o v|l]|ref with_]; try reflexivity.
  now rewrite (set_failed_call_none st ref with_ Hs).
Qed.

Lemma run_steps_failures ls : forall st,
  forallb (fun s => negb (handles_failure s)) ls = true ->
  failures (fold_left (run_step r cx) ls st) = failures st.
Proof.
  induction ls as [|s ls IH]; intros st Hls; [reflexivity|].
  cbn in Hls. apply andb_prop in Hls as [Hs Hls]. apply negb_true_iff in Hs.
  cbn [fold_left]. now rewrite (IH _ Hls), (run_step_failures st s Hs).
Qed.

(** A step that [uses] an action sets no output. *)
Lemma run_step_uses_outputs st s ref with_ :
  step_act s = Uses ref with_ -> outputs (run_step r cx st s) = outputs st.
Proof.
  intros Ha. unfold run_step. destruct (step_enabled cx st s); [|reflexivity].
  unfold exec_step. rewrite Ha. now destruct (set_failed_call cx st ref with_).
Qed.

(** A step that only [uses] an action adds no command line. *)
Lemma run_step_uses_commands st s ref with_ :
  ok st = true -> step_act s = Uses ref with_ ->
  commands (run_step r cx st s) = commands st.
Proof.
  intros E Ha. rewrite (run_step_commands st s E). unfold contribution.
  rewrite Ha. apply app_nil_r.
Qed.
End Reliable.

Lemma flat_map_none {A B} (F : A -> list B) (l : list A) :
  Forall (fun a => F a = []) l -> flat_map F l = [].
Proof. induction 1 as [|a l Ha _ IH]; cbn; [reflexivity|now rewrite Ha, IH]. Qed.

(** The summary of the submissions of a run: step and cluster. *)
Definition cluster_lines (cs : list (string * list string))
    : list (string * option string) :=
  List.map (fun c => (c.1, flag_value "--clustername" c.2))
    (List.filter
       (fun c => match c.2 with
                 | a :: b :: _ => String.eqb a "python" && String.eqb b submit_script
                 | _ => false
                 end) cs).

Lemma cluster_lines_app a b :
  cluster_lines (a ++ b)%list = (cluster_lines a ++ cluster_lines b)%list.
Proof. unfold cluster_lines. now rewrite List.filter_app, List.map_app. Qed.

Lemma submitted_lines st :
  List.map (fun c => (c.1, flag_value "--clustername" c.2)) (submitted st) =
  cluster_lines (commands st).
Proof. reflexivity. Qed.

Definition before_check : list step :=
  (setup_steps ++ submit_steps ++ [print_test_logs; get_exit_status])%list.

Lemma steps_execute_tests :
  steps execute_tests = (before_check ++ [check_success_failure])%list.
Proof. reflexivity. Qed.

Lemma before_check_plain :
  forallb (fun s => negb (handles_failure s)) before_check = true.
Proof. reflexivity. Qed.

Section ExecuteTests.
Variable r : runner.
Variables sec inp gh : gmap string string.
Variable nd : gmap (string * string) string.
Variables pv g : string.

(** The contexts of the matrix entry [(pv, g)] of [execute-tests]. *)
Definition entry : contexts :=
  job_contexts azureml_tests sec inp
    [("python-version", pv); ("test-group", g)] gh nd.

Definition has (kw : string) : bool := contains (VStr g) (VStr kw).

Lemma holds_submit o n kw cluster deps :
  holds entry o (submit n kw cluster deps) = has kw.
Proof. reflexivity. Qed.

Lemma lines_submit o n kw cluster deps name :
  assoc cluster (wf_env azureml_tests) = Some name ->
  cluster_lines (contribution entry o (submit n kw cluster deps)) =
  if has kw then [(n, Some name)] else [].
Proof.
  intros E. unfold contribution. rewrite holds_submit.
  destruct (has kw); [|reflexivity].
  cbn [step_act submit step_name]. unfold submit_argv, cluster_lines.
  cbn [app List.map List.filter snd fst w]. 
  change (render entry o true [Txt "python"]) with "python".
  change (render entry o true [Txt submit_script]) with submit_script.
  change (render entry o true [Txt "--clustername"]) with "--clustername".
  change (render entry o true [Sub (Ctx Env cluster)])
    with (to_string (of_lookup (assoc cluster (wf_env azureml_tests))) ++ "").
  rewrite E. cbn [of_lookup to_string].
  change (String.eqb "python" "python" && String.eqb submit_script submit_script) with true.
  cbn [List.map fst snd flag_value].
  change (String.eqb "python" "--clustername") with false.
  change (String.eqb submit_script "--clustername") with false.
  change (String.eqb "--clustername" "--clustername") with true.
  cbn [head]. now rewrite TextFacts.append_nil_r.
Qed.

Lemma lines_cpu o :
  cluster_lines (contribution entry o submit_cpu) =
  if has "cpu" then [("Submit CPU tests to AzureML", Some "cpu-cluster")] else [].
Proof. exact (lines_submit o _ _ "CPU_CLUSTER_NAME" _ "cpu-cluster" eq_refl). Qed.

Lemma lines_gpu o :
  cluster_lines (contribution entry o submit_gpu) =
  if has "gpu" then [("Submit GPU tests to AzureML", Some "gpu-cluster")] else [].
Proof. exact (lines_submit o _ _ "GPU_CLUSTER_NAME" _ "gpu-cluster" eq_refl). Qed.

Lemma lines_spark o :
  cluster_lines (contribution entry o submit_spark) =
  if has "spark" then [("Submit PySpark tests to AzureML", Some "cpu-cluster")] else [].
Proof. exact (lines_submit o _ _ "CPU_CLUSTER_NAME" _ "cpu-cluster" eq_refl). Qed.

Lemma lines_plain :
  Forall (fun s => forall o, cluster_lines (contribution entry o s) = [])
    (setup_steps ++ [print_test_logs; get_exit_status]).
Proof.
  cbv [setup_steps app].
  repeat (constructor; [intros o; lazy -[lookup]; reflexivity|]).
  constructor.
Qed.

Lemma lines_before_check :
  Forall (fun s => forall o,
            cluster_lines (contribution entry o s) =
            cluster_lines (contribution entry ∅ s)) before_check.
Proof.
  pose proof lines_plain as Hp. apply Forall_app in Hp as [Hs Ht].
  unfold before_check. apply Forall_app. split; [|apply Forall_app; split].
  - eapply Forall_impl; [exact Hs|]. intros s H o. cbn beta in H. now rewrite !H.
  - unfold submit_steps.
    repeat (apply List.Forall_cons; [intros o|]); [| | |apply List.Forall_nil].
    all: now rewrite ?lines_cpu, ?lines_gpu, ?lines_spark.
  - eapply Forall_impl; [exact Ht|]. intros s H o. cbn beta in H. now rewrite !H.
Qed.

Hypothesis Hr : all_succeed r.

Lemma ok_before_check :
  ok (fold_left (run_step r entry) before_check init) = true /\
  failures (fold_left (run_step r entry) before_check init) = [].
Proof. exact (run_steps_keep_ok r entry Hr before_check init before_check_plain eq_refl). Qed.

Lemma submitted_by_group :
  List.map (fun c => (c.1, flag_value "--clustername" c.2))
    (submitted (run_job r entry execute_tests)) =
  ((if has "cpu" then [("Submit CPU tests to AzureML", Some "cpu-cluster")] else []) ++
   (if has "gpu" then [("Submit GPU tests to AzureML", Some "gpu-cluster")] else []) ++
   (if has "spark" then [("Submit PySpark tests to AzureML", Some "cpu-cluster")] else []))%list.
Proof.
  rewrite submitted_lines. unfold run_job.
  rewrite steps_execute_tests, fold_left_app. cbn [fold_left].
  destruct ok_before_check as [E _].
  erewrite run_step_uses_commands; [|exact E|reflexivity].
  rewrite (run_steps_summary r entry Hr cluster_lines
             (fun s => cluster_lines (contribution entry ∅ s)) cluster_lines_app
             before_check init eq_refl before_check_plain lines_before_check).
  unfold before_check. rewrite !flat_map_app.
  pose proof lines_plain as Hp. apply Forall_app in Hp as [Hs Ht].
  rewrite (flat_map_none _ setup_steps), (flat_map_none _ [print_test_logs; get_exit_status]).
  - cbn [flat_map submit_steps commands init app].
    rewrite lines_cpu, lines_gpu, lines_spark.
    change (cluster_lines []) with (@nil (string * option string)).
    cbn [app]. now rewrite !app_nil_r.
  - eapply Forall_impl; [exact Ht|]. intros s H. apply H.
  - eapply Forall_impl; [exact Hs|]. intros s H. apply H.
Qed.

(** Reading the exit status, in a job that has not failed, stores the
    text of the exit-code file as the step's [code] output. *)
Lemma get_exit_status_stores st :
  ok st = true ->
  let st' := run_step r entry st get_exit_status in
  failures st' = failures st /\
  outputs st' !! ("exit_status", "code") = Some (read_file r "pytest_exit_code.log").
Proof.
  intros E st'. subst st'. unfold run_step.
  rewrite (step_enabled_ok entry st _ E).
  change (holds entry (outputs st) get_exit_status) with true. cbv iota.
  unfold exec_step. cbn [step_act get_exit_status step_name step_id failures outputs].
  split; [reflexivity|].
  cbn [set_outputs fold_left fst snd]. now rewrite lookup_insert_eq.
Qed.

Lemma get_exit_status_reads st :
  ok st = true ->
  let st' := run_step r entry st get_exit_status in
  ok st' = true /\ failures st' = failures st /\
  outputs st' !! ("exit_status", "code") = Some (read_file r "pytest_exit_code.log").
Proof.
  intros E st'. subst st'.
  destruct (get_exit_status_stores st E) as [F O]. cbv zeta in F, O.
  split; [|now split].
  apply (run_step_keeps_ok r entry Hr st get_exit_status eq_refl E).
Qed.

(** The check: with the job successful so far and [code] read, the job
    fails exactly when the code is not the number 0. *)
Lemma check_decides st code :
  ok st = true -> outputs st !! ("exit_status", "code") = Some code ->
  let st' := run_step r entry st check_success_failure in
  let zero := number_eqb (parse_number code) (Int 0) in
  ok st' = zero /\
  failures st' = (failures st ++ if zero then [] else ["'All tests did not pass!'"])%list.
Proof.
  intros E Hc st' zero. subst st' zero. unfold run_step, step_enabled.
  cbn [step_if check_success_failure uses_status orb eval].
  rewrite E, Hc. cbn [of_lookup loose_eqb to_number truthy andb].
  destruct (number_eqb (parse_number code) (Int 0)); cbn [negb].
  - now rewrite app_nil_r.
  - unfold exec_step. cbn [step_act].
    replace (set_failed_call entry st "actions/github-script@v3"
               [("script", w ("core.setFailed('All tests did not pass!')" ++ Text.newline))])
      with (Some "'All tests did not pass!'") by reflexivity.
    now cbn.
Qed.

(** The end of a run, whatever its steps do: with [before] telling
    whether every step before the check succeeded, the run succeeds when
    [before] holds and the code read is the number 0, and the one failure
    recorded is that of the check. *)
Lemma exit_code_decides_any :
  let st := run_job r entry execute_tests in
  let before := ok (fold_left (run_step r entry) before_check init) in
  let zero := number_eqb (parse_number (read_file r "pytest_exit_code.log")) (Int 0) in
  ok st = before && zero /\
  failures st = (if before && negb zero then ["'All tests did not pass!'"] else []) /\
  (before = true ->
   outputs st !! ("exit_status", "code") = Some (read_file r "pytest_exit_code.log")).
Proof.
  intros st before zero. subst st before zero. unfold run_job.
  rewrite steps_execute_tests, fold_left_app. cbn [fold_left].
  pose proof (run_steps_failures r entry before_check init before_check_plain) as F.
  change (failures init) with (@nil string) in F.
  destruct (ok (fold_left (run_step r entry) before_check init)) eqn:E.
  - revert E F.
    change before_check
      with ((setup_steps ++ submit_steps ++ [print_test_logs]) ++ [get_exit_status])%list.
    rewrite fold_left_app. cbn [fold_left].
    set (st := fold_left (run_step r entry) (setup_steps ++ submit_steps ++ [print_test_logs]) init).
    intros E F.
    assert (E0 : ok st = true).
    { destruct (ok st) eqn:E0; [reflexivity|].
      now rewrite (run_step_skipped r entry st get_exit_status E0 eq_refl), E0 in E. }
    destruct (get_exit_status_stores st E0) as [_ Hc]. cbv zeta in Hc.
    destruct (check_decides _ _ E Hc) as [E' F']. cbv zeta in E', F'.
    rewrite E', F', F. cbn [andb app].
    split; [reflexivity|]. split.
    + now destruct (number_eqb _ _).
    + intros _. now rewrite (run_step_uses_outputs r entry _ check_success_failure _ _ eq_refl).
  - rewrite (run_step_skipped r entry _ check_success_failure E eq_refl), E, F.
    repeat split. discriminate.
Qed.

Lemma exit_code_decides :
  let st := run_job r entry execute_tests in
  let zero := number_eqb (parse_number (read_file r "pytest_exit_code.log")) (Int 0) in
  ok st = zero /\
  failures st = if zero then [] else ["'All tests did not pass!'"].
Proof.
  intros st zero. subst st zero.
  destruct exit_code_decides_any as (E & F & _). cbv zeta in E, F.
  destruct ok_before_check as [B _]. rewrite B in E, F. cbn [andb] in E, F.
  split; [exact E|]. rewrite F. now destruct (number_eqb _ _).
Qed.

(** With every step itself succeeding, the output [code] of the exit-status
    step is, at the end of the run, the text of the exit-code file. *)
Lemma exit_code_is_read :
  outputs (run_job r entry execute_tests) !! ("exit_status", "code") =
  Some (read_file r "pytest_exit_code.log").
Proof.
  destruct exit_code_decides_any as (_ & _ & O). cbv zeta in O.
  apply O. apply ok_before_check.
Qed.
End ExecuteTests.

(** Every step succeeds with this runner; the exit-code file reads [code]. *)
Definition quiet (code : string) : runner :=
  {| exit_ok := fun _ => true;
     read_file := fun f => if String.eqb f "pytest_exit_code.log" then code else "";
     getenv := fun _ => "refs/heads/staging";
     script_outputs := fun _ => [] |}.

Lemma quiet_succeeds code : all_succeed (quiet code).
Proof. intros n. reflexivity. Qed.

(** C2: in the reusable test workflow, a run whose exit-status file (the
    file named by [PYTEST_EXIT_CODE]) holds the exit code [z] is, with
    every step itself succeeding, marked failed exactly when [z] is not 0,
    and then by the check step calling
    [core.setFailed('All tests did not pass!')]. Whatever the steps do,
    that call is the only failure a run records, it is made only for a
    code other than 0, and no other step of the workflow handles failure. *)
Theorem failed_iff_exit_code_nonzero r sec inp gh nd pv g z :
  read_file r "pytest_exit_code.log" = Text.of_Z z ->
  let st := run_job r (entry sec inp gh nd pv g) execute_tests in
  (all_succeed r ->
   (ok st = false <-> z <> 0%Z) /\
   (failures st = ["'All tests did not pass!'"] <-> z <> 0%Z) /\
   (failures st = [] <-> z = 0%Z)) /\
  (failures st = [] \/
   failures st = ["'All tests did not pass!'"] /\ z <> 0%Z /\ ok st = false) /\
  assoc "PYTEST_EXIT_CODE" (wf_env azureml_tests) = Some "pytest_exit_code.log" /\
  List.filter handles_failure (all_steps azureml_tests) = [check_success_failure].
Proof.
  intros Hz st. subst st.
  destruct (exit_code_decides_any r sec inp gh nd pv g) as (E & F & _).
  cbv zeta in E, F. rewrite Hz, NumberFacts.parse_of_Z_zero in E, F.
  split; [|split; [|split; reflexivity]].
  - intros Hr. destruct (ok_before_check r sec inp gh nd pv g Hr) as [B _].
    rewrite B in E, F. cbn [andb] in E, F. rewrite E, F.
    destruct (Z.eqb_spec z 0) as [->|Hn]; cbn [negb].
    + repeat split; intros; congruence.
    + repeat split; intros; congruence.
  - rewrite E, F.
    destruct (ok (fold_left _ before_check init));
      destruct (Z.eqb_spec z 0) as [->|Hn]; cbn [andb negb];
      try (left; reflexivity).
    right. repeat split. exact Hn.
Qed.

Lemma failed_iff_exit_code_nonzero_witness :
  ok (run_job (quiet "1") (entry ∅ ∅ ∅ ∅ "3.8" "group_cpu_001") execute_tests) = false.
Proof.
  apply (proj1 (failed_iff_exit_code_nonzero (quiet "1") ∅ ∅ ∅ ∅ "3.8" "group_cpu_001"
                  1 eq_refl) (quiet_succeeds "1")).
  discriminate.
Defined.

(** C10: for a matrix entry whose steps succeed, the submission steps that
    run are exactly those whose keyword occurs in the test-group name:
    [cpu] submits to the CPU cluster, [gpu] to the GPU cluster with
    [--add_gpu_dependencies], [spark] to the CPU cluster with
    [--add_spark_dependencies], and a name with none of the three submits
    nothing. *)
Theorem submissions_follow_test_group r sec inp gh nd pv g :
  all_succeed r ->
  let st := run_job r (entry sec inp gh nd pv g) execute_tests in
  List.map (fun c => (c.1, flag_value "--clustername" c.2)) (submitted st) =
    ((if has g "cpu" then [("Submit CPU tests to AzureML", Some "cpu-cluster")] else []) ++
     (if has g "gpu" then [("Submit GPU tests to AzureML", Some "gpu-cluster")] else []) ++
     (if has g "spark" then [("Submit PySpark tests to AzureML", Some "cpu-cluster")] else []))%list /\
  List.map (fun s => (step_name s, dependency_flags s))
    (List.filter is_submission (steps execute_tests)) =
    [ ("Submit CPU tests to AzureML", []);
      ("Submit GPU tests to AzureML", ["--add_gpu_dependencies"]);
      ("Submit PySpark tests to AzureML", ["--add_spark_dependencies"]) ] /\
  (has g "cpu" = false -> has g "gpu" = false -> has g "spark" = false ->
   submitted st = []).
Proof.
  intros Hr st. subst st.
  pose proof (submitted_by_group r sec inp gh nd pv g Hr) as H.
  split; [exact H|]. split; [reflexivity|].
  intros H1 H2 H3. rewrite H1, H2, H3 in H. cbn [app] in H.
  now destruct (submitted _).
Qed.

Lemma submissions_follow_test_group_witness :
  List.map (fun c => (c.1, flag_value "--clustername" c.2))
    (submitted (run_job (quiet "0") (entry ∅ ∅ ∅ ∅ "3.8" "group_gpu_001") execute_tests)) =
  [("Submit GPU tests to AzureML", Some "gpu-cluster")].
Proof.
  exact (proj1 (submissions_follow_test_group (quiet "0") ∅ ∅ ∅ ∅ "3.8" "group_gpu_001"
                  (quiet_succeeds "0"))).
Defined.

End RunFacts.

(** ** The notebook *)

Module NotebookFacts.
Import Notebook.

(** Conjunctions and [Forall]s over an explicit trace, then membership in
    an explicit list. *)
Ltac forward :=
  repeat match goal with
         | |- _ /\ _ => split
         | |- Forall _ [] => apply List.Forall_nil
         | |- Forall _ (_ :: _) => apply List.Forall_cons
         | |- True => exact I
         end;
  cbv beta; repeat (first [left; reflexivity | right]).

Section Run.
Context {Dataset Model : Type}.
Variable lib : Library Dataset Model.

(** The values the cells compute, as the library gives them. *)
Definition data : DataFrame :=
  load_pandas_df lib "100k" ["userID"; "itemID"; "rating"].
Definition train : DataFrame := (python_random_split lib data 0.75).1.
Definition test : DataFrame := (python_random_split lib data 0.75).2.
Definition train_set : Dataset := from_uir lib (rows train) (SEED lib).
Definition bpr : Model := BPR lib 200 100 0.01 0.001 true (SEED lib).
Definition fitted : Model := fit lib bpr train_set.
Definition all_predictions : DataFrame :=
  recommend_k_items lib fitted train "userID" "itemID" true.

(** The kernel after Run All. *)
Definition final : kernel Dataset Model :=
  Eval vm_compute in
    match run_all lib with
    | inr k => k
    | inl _ => fresh
    end.

Lemma run_all_final : run_all lib = inr final.
Proof. vm_compute. reflexivity. Qed.

Definition scored (f : Fn.callable) (metric : DataFrame -> DataFrame -> string -> Z -> Q)
    : event Dataset Model :=
  {| fn := f; self := None;
     args := [VFrame test; VFrame all_predictions];
     kwargs := [("col_prediction", VStr "prediction"); ("k", VInt 10)];
     result := VFloat (metric test all_predictions "prediction" 10%Z) |}.

(** C4: the model is built by one call of [BPR] with no positional
    argument and exactly six keyword arguments: [k] = NUM_FACTORS = 200,
    [max_iter] = NUM_EPOCHS = 100, [learning_rate] = 0.01, [lambda_reg] =
    0.001, [verbose] = True and [seed] = SEED. *)
Theorem bpr_hyperparameters :
  exists k,
    run_all lib = inr k /\
    globals k !! "NUM_FACTORS" = Some (VInt 200) /\
    globals k !! "NUM_EPOCHS" = Some (VInt 100) /\
    globals k !! "SEED" = Some (VInt (SEED lib)) /\
    calls_of Fn.BPR (trace k) =
      [ {| fn := Fn.BPR; self := None; args := [];
           kwargs := [ ("k", VInt 200); ("max_iter", VInt 100);
                       ("learning_rate", VFloat 0.01); ("lambda_reg", VFloat 0.001);
                       ("verbose", VBool true); ("seed", VInt (SEED lib)) ];
           result := VModel bpr |} ].
Proof.
  exists final. split; [exact run_all_final|].
  repeat split; vm_compute; reflexivity.
Qed.

(** C5: each of [map], [ndcg_at_k], [precision_at_k] and [recall_at_k] is
    called once, on the table [test] and the table [all_predictions],
    with [col_prediction='prediction'] and [k] = TOP_K = 10, and returns
    one number, which is bound to its [eval_] name. *)
Theorem metrics_calls :
  exists k,
    run_all lib = inr k /\
    globals k !! "TOP_K" = Some (VInt 10) /\
    globals k !! "test" = Some (VFrame test) /\
    globals k !! "all_predictions" = Some (VFrame all_predictions) /\
    List.filter (fun e => is_metric (fn e)) (trace k) =
      [ scored Fn.map (map lib); scored Fn.ndcg_at_k (ndcg_at_k lib);
        scored Fn.precision_at_k (precision_at_k lib);
        scored Fn.recall_at_k (recall_at_k lib) ] /\
    List.map (fun n => globals k !! n)
      ["eval_map"; "eval_ndcg"; "eval_precision"; "eval_recall"] =
    List.map (fun e => Some (result e))
      [ scored Fn.map (map lib); scored Fn.ndcg_at_k (ndcg_at_k lib);
        scored Fn.precision_at_k (precision_at_k lib);
        scored Fn.recall_at_k (recall_at_k lib) ].
Proof.
  exists final. split; [exact run_all_final|].
  repeat split; vm_compute; reflexivity.
Qed.

(** What a metric result is recorded as. *)
Definition recorded (key : string) (metric : DataFrame -> DataFrame -> string -> Z -> Q)
    : event Dataset Model :=
  {| fn := Fn.store_metadata; self := None;
     args := [VStr key; VFloat (metric test all_predictions "prediction" 10%Z)];
     kwargs := []; result := VNone |}.

(** The calls of the pipeline, each on the results of the calls before it:
    the table loaded, split into [train] and [test], the dataset built from
    the rows of [train], the model, the model fitted on that dataset, the
    predictions of the fitted model for [train], the four scores of the
    predictions against [test], and the four scores recorded. *)
Definition pipeline : list (event Dataset Model) :=
  [ {| fn := Fn.load_pandas_df; self := None; args := [];
       kwargs := [("size", VStr "100k"); ("header", VStrs ["userID"; "itemID"; "rating"])];
       result := VFrame data |};
    {| fn := Fn.python_random_split; self := None;
       args := [VFrame data; VFloat 0.75]; kwargs := [];
       result := VPair (VFrame train) (VFrame test) |};
    {| fn := Fn.itertuples; self := Some (VFrame train); args := [];
       kwargs := [("index", VBool false)];
       result := VRows (rows train) |};
    {| fn := Fn.from_uir; self := None; args := [VRows (rows train)];
       kwargs := [("seed", VInt (SEED lib))];
       result := VDataset train_set |};
    {| fn := Fn.BPR; self := None; args := [];
       kwargs := [ ("k", VInt 200); ("max_iter", VInt 100);
                   ("learning_rate", VFloat 0.01); ("lambda_reg", VFloat 0.001);
                   ("verbose", VBool true); ("seed", VInt (SEED lib)) ];
       result := VModel bpr |};
    {| fn := Fn.fit; self := Some (VModel bpr); args := [VDataset train_set];
       kwargs := []; result := VModel fitted |};
    {| fn := Fn.recommend_k_items; self := Some (VModel fitted);
       args := [VFrame train];
       kwargs := [ ("col_user", VStr "userID"); ("col_item", VStr "itemID");
                   ("remove_seen", VBool true) ];
       result := VFrame all_predictions |};
    scored Fn.map (map lib); scored Fn.ndcg_at_k (ndcg_at_k lib);
    scored Fn.precision_at_k (precision_at_k lib);
    scored Fn.recall_at_k (recall_at_k lib);
    recorded "map" (map lib); recorded "ndcg" (ndcg_at_k lib);
    recorded "precision" (precision_at_k lib); recorded "recall" (recall_at_k lib) ].

(** C6: Run All succeeds on a fresh kernel; its calls are, in this
    order, loading the table, splitting it, building the dataset from
    the training rows, creating the model, fitting it on that dataset,
    predicting with the fitted model, scoring the predictions against the
    test table with the four metrics and recording the four scores: each
    call of the pipeline has exactly the arguments that the earlier calls
    returned, and every object a call consumes was produced by an earlier
    call. *)
Theorem notebook_is_linear :
  exists k,
    run_all lib = inr k /\
    List.map fn (trace k) =
      [ Fn.print; Fn.print; Fn.load_pandas_df; Fn.head; Fn.python_random_split;
        Fn.itertuples; Fn.from_uir; Fn.print; Fn.print; Fn.BPR;
        Fn.Timer; Fn.fit; Fn.print; Fn.Timer; Fn.recommend_k_items; Fn.print;
        Fn.head; Fn.map; Fn.ndcg_at_k; Fn.precision_at_k; Fn.recall_at_k;
        Fn.print; Fn.store_metadata; Fn.store_metadata; Fn.store_metadata;
        Fn.store_metadata ] /\
    omap stage_of (List.map fn (trace k)) =
      [ Load; Split; Construct; Construct; Instantiate; Fit; Predict;
        Score; Score; Score; Score; Emit; Emit; Emit; Emit ] /\
    List.filter (fun e => bool_decide (is_Some (stage_of (fn e)))) (trace k) = pipeline /\
    feeds_forward [] (trace k).
Proof.
  exists final. split; [exact run_all_final|].
  split; [vm_compute; reflexivity|]. split; [vm_compute; reflexivity|].
  split; [vm_compute; reflexivity|].
  vm_compute. forward.
Qed.
End Run.
End NotebookFacts.

(** ** More on the workflows *)

Module CallFacts.
Import Workflow.

Lemma prefix_lower a : forall b,
  String.prefix a b = true -> String.prefix (Text.lower a) (Text.lower b) = true.
Proof.
  induction a as [|c a IH]; intros b H; [now destruct b|].
  destruct b as [|d b]; [discriminate|]. cbn [String.prefix Text.lower] in *.
  destruct (ascii_dec c d) as [->|]; [|discriminate].
  destruct (ascii_dec (Text.lower_ascii d) (Text.lower_ascii d)); [auto|congruence].
Qed.

(** A text that occurs in another still occurs when case is ignored. *)
Lemma is_substring_lower a b :
  Text.is_substring a b = true ->
  Text.is_substring (Text.lower a) (Text.lower b) = true.
Proof.
  induction b as [|d b IH]; cbn [Text.is_substring Text.lower]; intros H.
  - rewrite orb_false_r in H |- *. now apply (prefix_lower a "").
  - apply orb_prop in H as [H|H].
    + pose proof (prefix_lower a (String d b) H) as P. cbn [Text.lower] in P.
      now rewrite P.
    + rewrite (IH H). apply orb_true_r.
Qed.

Lemma has_of_substring g kw : Text.is_substring kw g = true -> RunFacts.has g kw = true.
Proof. apply is_substring_lower. Qed.

(** The contexts of one matrix entry, with nothing supplied from outside. *)
Definition sample : contexts := RunFacts.entry ∅ ∅ ∅ ∅ "3.8" "group_spark_001".

Lemma passed_spark cx :
  Calls.passed cx Calls.spark_nightly_tests !! "TEST_KIND" = Some "nightly" /\
  Calls.passed cx Calls.spark_nightly_tests !! "TEST_ENV" = Some "spark" /\
  Calls.passed cx Calls.spark_nightly_tests !! "EXP_NAME" = Some "nightly_tests".
Proof. repeat split; vm_compute; reflexivity. Qed.

(** X4: when the reusable test workflow is called as [azureml-spark-nightly]
    calls it, the call passes the required inputs and only declared ones,
    the groups selected are the nightly groups whose name holds [spark], and
    each of them is submitted by the PySpark step, to the CPU cluster. *)
Theorem spark_nightly_groups_are_submitted r cx sec gh nd pv nightly unit gs g :
  all_succeed r ->
  Calls.test_groups (Calls.passed cx Calls.spark_nightly_tests) nightly unit = Some gs ->
  In g gs ->
  Calls.fits azureml_tests Calls.spark_nightly_tests = true /\
  gs = List.filter (Text.is_substring "spark") nightly /\
  In ("Submit PySpark tests to AzureML", Some "cpu-cluster")
    (List.map (fun c => (c.1, flag_value "--clustername" c.2))
       (submitted
          (run_job r
             (RunFacts.entry sec (Calls.passed cx Calls.spark_nightly_tests) gh nd pv g)
             execute_tests))).
Proof.
  intros Hr Hgs Hg. destruct (passed_spark cx) as (Hk & He & _).
  unfold Calls.test_groups in Hgs. rewrite Hk, He in Hgs. cbn in Hgs.
  injection Hgs as <-. split; [reflexivity|]. split; [reflexivity|].
  apply List.filter_In in Hg as [_ Hg].
  rewrite (RunFacts.submitted_by_group r sec _ gh nd pv g Hr).
  rewrite (has_of_substring g "spark" Hg).
  apply List.in_or_app. right. apply List.in_or_app. right. now left.
Qed.

Lemma spark_nightly_groups_are_submitted_witness :
  In ("Submit PySpark tests to AzureML", Some "cpu-cluster")
    (List.map (fun c => (c.1, flag_value "--clustername" c.2))
       (submitted
          (run_job (RunFacts.quiet "0")
             (RunFacts.entry ∅
                (Calls.passed sample Calls.spark_nightly_tests)
                ∅ ∅ "3.8" "group_spark_001")
             execute_tests))).
Proof.
  refine (proj2 (proj2
    (spark_nightly_groups_are_submitted (RunFacts.quiet "0") sample
       ∅ ∅ ∅ "3.8" ["group_cpu_001"; "group_spark_001"] ["group_python_001"]
       ["group_spark_001"] "group_spark_001" (RunFacts.quiet_succeeds "0") _ _))).
  - vm_compute. reflexivity.
  - simpl. auto.
Defined.

(** X7: the environment name that [azureml-gpu-nightly] passes to the test
    action is [recommenders-SHA-pythonVERSION], followed by [-gpu] when the
    test-group name holds [gpu] and then by [-spark] when it holds [spark]. *)
Theorem nightly_environment_name sec inp gh nd pv g o b :
  option_map
    (render (job_contexts azureml_gpu_nightly sec inp
               [("python-version", pv); ("test-group", g)] gh nd) o b)
    (Calls.action_input azureml_gpu_nightly "Execute tests" "ENV_NAME") =
  Some ("recommenders-" ++ to_string (of_lookup (gh !! "sha")) ++ "-python" ++ pv ++
        (if RunFacts.has g "gpu" then "-gpu" else "") ++
        (if RunFacts.has g "spark" then "-spark" else ""))%string.
Proof.
  change (Calls.action_input azureml_gpu_nightly "Execute tests" "ENV_NAME")
    with (Some [ Txt "recommenders-"; Sub (Ctx Github "sha");
                 Txt "-python"; Sub (Ctx Matrix "python-version");
                 Sub (Or (And (Contains (Ctx Matrix "test-group") (Lit (VStr "gpu")))
                              (Lit (VStr "-gpu")))
                         (Lit (VStr "")));
                 Sub (Or (And (Contains (Ctx Matrix "test-group") (Lit (VStr "spark")))
                              (Lit (VStr "-spark")))
                         (Lit (VStr ""))) ]).
  cbn [option_map]. f_equal. unfold render. cbn [fold_right render_piece].
  change (eval _ o b (Ctx Github "sha")) with (of_lookup (gh !! "sha")).
  change (eval _ o b (Ctx Matrix "python-version")) with (VStr pv).
  cbn [to_string]. do 4 f_equal.
  cbn [eval].
  change (contains _ (VStr "gpu")) with (RunFacts.has g "gpu").
  change (contains _ (VStr "spark")) with (RunFacts.has g "spark").
  destruct (RunFacts.has g "gpu"), (RunFacts.has g "spark"); reflexivity.
Qed.

(** X2: an empty exit-status text (the file is empty or missing) leaves the
    run successful, and a text that has a letter and no digit, which spells
    no finite number, fails it. *)
Theorem empty_exit_code_passes r sec inp gh nd pv g :
  all_succeed r ->
  let st := run_job r (RunFacts.entry sec inp gh nd pv g) execute_tests in
  let code := read_file r "pytest_exit_code.log" in
  (code = "" -> ok st = true /\ failures st = []) /\
  (Text.digit_free code = true -> Text.has_letter code = true ->
   ok st = false /\ failures st = ["'All tests did not pass!'"]).
Proof.
  intros Hr st code. subst st code.
  destruct (RunFacts.exit_code_decides r sec inp gh nd pv g Hr) as [E F].
  cbv zeta in E, F. rewrite E, F. split.
  - intros ->. now split.
  - intros Hd Hl. rewrite (NumberFacts.parse_no_digit _ Hd Hl). now split.
Qed.

Lemma empty_exit_code_passes_witness :
  ok (run_job (RunFacts.quiet "") (RunFacts.entry ∅ ∅ ∅ ∅ "3.8" "group_cpu_001")
        execute_tests) = true /\
  ok (run_job (RunFacts.quiet "killed") (RunFacts.entry ∅ ∅ ∅ ∅ "3.8" "group_cpu_001")
        execute_tests) = false.
Proof.
  split.
  - apply (empty_exit_code_passes (RunFacts.quiet "") ∅ ∅ ∅ ∅ "3.8" "group_cpu_001"
             (RunFacts.quiet_succeeds "")). reflexivity.
  - apply (empty_exit_code_passes (RunFacts.quiet "killed") ∅ ∅ ∅ ∅ "3.8" "group_cpu_001"
             (RunFacts.quiet_succeeds "killed")); reflexivity.
Defined.

(** X3: once a step of [execute-tests] has failed, no later step runs: the job
    ends in the state of the failure, so the logs are not printed, the exit
    status is not read and [core.setFailed] is not called. *)
Theorem failure_skips_the_rest r cx before after :
  steps execute_tests = (before ++ after)%list ->
  ok (fold_left (run_step r cx) before init) = false ->
  run_job r cx execute_tests = fold_left (run_step r cx) before init.
Proof.
  intros Hs E. unfold run_job. rewrite Hs, fold_left_app.
  apply RunFacts.run_steps_skipped; [exact E|].
  assert (H : forallb (fun s => negb match step_if s with
                                     | Some e => uses_status e
                                     | None => false
                                     end) (steps execute_tests) = true) by reflexivity.
  rewrite Hs, forallb_app in H. now apply andb_prop in H as [_ H].
Qed.

(** Every step succeeds but the CPU submission. *)
Definition cpu_fails : runner :=
  {| exit_ok := fun n => negb (String.eqb n "Submit CPU tests to AzureML");
     read_file := fun _ => "1";
     getenv := fun _ => "refs/heads/staging";
     script_outputs := fun _ => [] |}.

Lemma failure_skips_the_rest_witness :
  let st :=
    run_job cpu_fails (RunFacts.entry ∅ ∅ ∅ ∅ "3.8" "group_cpu_001") execute_tests in
  ok st = false /\ failures st = [] /\
  last (ran st) = Some "Submit CPU tests to AzureML".
Proof.
  cbv zeta.
  rewrite (failure_skips_the_rest cpu_fails (RunFacts.entry ∅ ∅ ∅ ∅ "3.8" "group_cpu_001")
             (setup_steps ++ [submit_cpu])
             ([submit_gpu; submit_spark] ++ report_steps) eq_refl eq_refl).
  vm_compute. repeat split.
Defined.

Lemma run_uses r cx st n ref with_ :
  ok st = true -> github_script ref = false ->
  run_step r cx st (uses n ref with_) =
  {| outputs := outputs st; ok := exit_ok r n; ran := ran st ++ [n];
     commands := commands st; failures := failures st |}.
Proof.
  intros E Hg. unfold run_step, step_enabled. cbn [uses step_if]. rewrite E.
  unfold exec_step. cbn [uses step_act step_name].
  rewrite (RunFacts.set_failed_call_none cx st ref with_ Hg). now rewrite E.
Qed.

Lemma run_script_outputs r cx st s l :
  ok st = true -> step_if s = None -> step_act s = Run (Script l) ->
  outputs (run_step r cx st s) =
  set_outputs (step_id s) (script_outputs r (step_name s)) (outputs st).
Proof.
  intros E Hi Ha. unfold run_step, step_enabled. rewrite Hi, E.
  unfold exec_step. now rewrite Ha.
Qed.

(** X5: the first job of the test workflow hands the text its script prints to
    the matrix of [execute-tests]: with the checkout succeeding, the job
    output [test_groups] is that text, the [test-group] axis is [fromJSON]
    of the output [test_groups] of the job [get-test-groups], and that
    expression reads the text. *)
Theorem test_groups_reach_the_matrix r cx printed :
  exit_ok r "Check out repository code" = true ->
  script_outputs r "Get test group names" = [("test_groups", printed)] ->
  Calls.job_output r cx get_test_groups "test_groups" = Some printed /\
  Calls.axis_of "test-group" (strategy_matrix execute_tests) =
    Some (FromJSON (NeedsOut (job_id get_test_groups) "test_groups")) /\
  (forall sec inp mat gh o b,
     eval (job_contexts azureml_tests sec inp mat gh
             {[ (job_id get_test_groups, "test_groups") := printed ]}) o b
       (NeedsOut (job_id get_test_groups) "test_groups") = VStr printed).
Proof.
  intros Hc Hs.
  assert (Hout :
    Calls.job_output r cx get_test_groups "test_groups" =
    Some (to_string (of_lookup
            (outputs (run_job r cx get_test_groups) !! ("get_test_groups", "test_groups"))))).
  { unfold Calls.job_output.
    change (with_input "test_groups" (job_outputs get_test_groups))
      with (Some [Sub (StepOut "get_test_groups" "test_groups")]).
    cbn [option_map]. unfold render. cbn [fold_right render_piece eval].
    now rewrite TextFacts.append_nil_r. }
  assert (Hrun : run_job r cx get_test_groups =
                 run_step r cx
                   (run_step r cx init
                      (uses "Check out repository code" "actions/checkout@v2" []))
                   (List.nth 1 (steps get_test_groups)
                      (uses "none" "none" []))) by reflexivity.
  rewrite Hout, Hrun,
    (run_uses r cx init "Check out repository code" "actions/checkout@v2" []
       eq_refl eq_refl).
  split; [|split].
  - rewrite Hc.
    erewrite run_script_outputs; [|reflexivity|reflexivity|reflexivity].
    cbn [step_id step_name List.nth steps get_test_groups]. rewrite Hs.
    cbn [set_outputs fold_left fst snd]. now rewrite lookup_insert_eq.
  - reflexivity.
  - intros. cbn [eval needs job_contexts]. now rewrite lookup_singleton_eq.
Qed.

(** Every step succeeds and the script prints one group. *)
Definition prints_one_group : runner :=
  {| exit_ok := fun _ => true;
     read_file := fun _ => "0";
     getenv := fun _ => "refs/heads/staging";
     script_outputs := fun n =>
       if String.eqb n "Get test group names"
       then [("test_groups", "['group_spark_001']")] else [] |}.

Lemma test_groups_reach_the_matrix_witness :
  Calls.job_output prints_one_group sample
    get_test_groups "test_groups" = Some "['group_spark_001']".
Proof.
  apply (test_groups_reach_the_matrix prints_one_group sample
           "['group_spark_001']"); reflexivity.
Defined.

Lemma prefix_empty s : String.prefix "" s = true.
Proof. now destruct s. Qed.

Lemma is_substring_empty s : Text.is_substring "" s = true.
Proof. destruct s; cbn [Text.is_substring]; now rewrite prefix_empty. Qed.

Lemma filter_all {A} (f : A -> bool) l :
  (forall x, f x = true) -> List.filter f l = l.
Proof.
  intros H. induction l as [|x l IH]; [reflexivity|].
  cbn [List.filter]. now rewrite H, IH.
Qed.

(** X6: TEST_ENV is the one input of the test workflow that a caller may leave
    out; a nightly run without it selects every nightly group, since the
    empty text occurs in every name. *)
Theorem missing_test_env_selects_all inp nightly unit :
  inp !! "TEST_KIND" = Some "nightly" ->
  inp !! "TEST_ENV" = None ->
  List.map (fun d => (d.1, optional d.2)) (Calls.declared azureml_tests) =
    [("EXP_NAME", false); ("TEST_KIND", false); ("TEST_ENV", true)] /\
  Calls.test_groups inp nightly unit = Some nightly.
Proof.
  intros Hk He. split; [reflexivity|].
  unfold Calls.test_groups. rewrite Hk, He. cbn.
  f_equal. apply filter_all, is_substring_empty.
Qed.

Lemma missing_test_env_selects_all_witness :
  Calls.test_groups {["TEST_KIND" := "nightly"]}
    ["group_cpu_001"; "group_spark_001"] ["group_python_001"] =
  Some ["group_cpu_001"; "group_spark_001"].
Proof.
  apply (missing_test_env_selects_all {["TEST_KIND" := "nightly"]}
           ["group_cpu_001"; "group_spark_001"] ["group_python_001"]);
    reflexivity.
Defined.

End CallFacts.

(** ** The command lines of a test run *)

Module LineFacts.
Import Workflow.

Section Reliable.
Variable r : runner.
Variable cx : contexts.
Hypothesis Hr : all_succeed r.

Lemma run_step_keeps_outputs st s :
  Calls.keeps_outputs s = true -> outputs (run_step r cx st s) = outputs st.
Proof.
  intros Hs. unfold run_step. destruct (step_enabled cx st s); [|reflexivity].
  unfold exec_step, Calls.keeps_outputs in *.
  destruct (step_act s) as [[argv|o v|l]|ref with_]; try discriminate; [reflexivity|].
  apply negb_true_iff in Hs.
  now rewrite (RunFacts.set_failed_call_none cx st ref with_ Hs).
Qed.

(** A run of steps that set no output: the job stays successful, the
    outputs stay as they are, and each step adds its command line, rendered
    with these outputs. *)
Lemma run_quiet_steps ls : forall st,
  forallb (fun s => Calls.keeps_outputs s && negb (handles_failure s)) ls = true ->
  ok st = true ->
  let st' := fold_left (run_step r cx) ls st in
  ok st' = true /\ outputs st' = outputs st /\
  commands st' = (commands st ++ flat_map (RunFacts.contribution cx (outputs st)) ls)%list.
Proof.
  induction ls as [|s ls IH]; intros st Hls E; cbn [fold_left flat_map].
  - now rewrite app_nil_r.
  - cbn in Hls. apply andb_prop in Hls as [Hs Hls]. apply andb_prop in Hs as [Hk Hh].
    apply negb_true_iff in Hh.
    destruct (RunFacts.run_step_keeps_ok r cx Hr st s Hh E) as [E1 _].
    destruct (IH _ Hls E1) as (E2 & O2 & C2). cbv zeta in *.
    rewrite E2, O2, C2, (run_step_keeps_outputs st s Hk),
      (RunFacts.run_step_commands r cx st s E), app_assoc.
    repeat split.
Qed.
End Reliable.

Section ExecuteTests.
Variable r : runner.
Variables sec inp gh : gmap string string.
Variable nd : gmap (string * string) string.
Variables pv g : string.
Hypothesis Hr : all_succeed r.

#[local] Abbreviation cx := (RunFacts.entry sec inp gh nd pv g).
#[local] Abbreviation branch := (Text.remove_prefix "refs/heads/" (getenv r "GITHUB_REF")).
#[local] Abbreviation line := (Calls.line r sec inp pv g).
#[local] Abbreviation known :=
  (<[("extract_branch", "branch") := branch]> (∅ : gmap (string * string) string)).

Lemma render_word o b s : render cx o b (w s) = s.
Proof. apply TextFacts.append_nil_r. Qed.

Lemma render_sub o b e : render cx o b [Sub e] = to_string (eval cx o b e).
Proof. apply TextFacts.append_nil_r. Qed.

Lemma render_joined o b e1 s e2 :
  render cx o b [Sub e1; Txt s; Sub e2] =
  (to_string (eval cx o b e1) ++ s ++ to_string (eval cx o b e2))%string.
Proof. unfold render. cbn [fold_right render_piece]. now rewrite TextFacts.append_nil_r. Qed.

Ltac lookups :=
  repeat match goal with
         | |- context [assoc ?k ?l] =>
             let v := eval vm_compute in (assoc k l) in
             change (assoc k l) with v
         end.

Ltac rendered :=
  unfold RunFacts.contribution, submit_cpu, submit_gpu, submit_spark;
  rewrite RunFacts.holds_submit;
  match goal with |- context [RunFacts.has ?a ?b] => destruct (RunFacts.has a b) end;
  [|reflexivity];
  cbn [step_act submit step_name submit_argv app List.map];
  rewrite !render_word, !render_sub, render_joined;
  cbn [eval]; lookups; rewrite lookup_insert_eq; reflexivity.

Lemma line_cpu :
  RunFacts.contribution cx known submit_cpu =
  if RunFacts.has g "cpu"
  then [("Submit CPU tests to AzureML", line "cpu-cluster" [])] else [].
Proof. rendered. Qed.

Lemma line_gpu :
  RunFacts.contribution cx known submit_gpu =
  if RunFacts.has g "gpu"
  then [("Submit GPU tests to AzureML", line "gpu-cluster" ["--add_gpu_dependencies"])]
  else [].
Proof. rendered. Qed.

Lemma line_spark :
  RunFacts.contribution cx known submit_spark =
  if RunFacts.has g "spark"
  then [("Submit PySpark tests to AzureML", line "cpu-cluster" ["--add_spark_dependencies"])]
  else [].
Proof. rendered. Qed.

(** The branch step keeps the job successful, adds no command line and
    stores the ref without its [refs/heads/] prefix. *)
Lemma extract_branch_sets st :
  ok st = true ->
  let st' := run_step r cx st Calls.extract_branch_name in
  ok st' = true /\ commands st' = commands st /\
  outputs st' = <[("extract_branch", "branch") := branch]> (outputs st).
Proof.
  intros E st'. subst st'. unfold run_step.
  rewrite (RunFacts.step_enabled_ok cx st _ E).
  change (RunFacts.holds cx (outputs st) Calls.extract_branch_name) with true. cbv iota.
  unfold exec_step.
  cbn [step_act Calls.extract_branch_name step_name step_id ok commands outputs].
  rewrite Hr, E. repeat split.
Qed.

Lemma commands_of_run :
  commands (run_job r cx execute_tests) =
  (flat_map (RunFacts.contribution cx ∅) (firstn 6 setup_steps) ++
   flat_map (RunFacts.contribution cx known) (submit_steps ++ [print_test_logs]))%list.
Proof.
  unfold run_job.
  change (steps execute_tests)
    with (firstn 6 setup_steps ++
          ([Calls.extract_branch_name] ++
           ((submit_steps ++ [print_test_logs]) ++
            [get_exit_status; check_success_failure])))%list.
  set (middle := (submit_steps ++ [print_test_logs])%list).
  rewrite !fold_left_app. subst middle.
  destruct (run_quiet_steps r cx Hr (firstn 6 setup_steps) init eq_refl eq_refl)
    as (E6 & O6 & C6).
  set (st6 := fold_left (run_step r cx) (firstn 6 setup_steps) init) in *.
  change (fold_left (run_step r cx) [Calls.extract_branch_name] st6)
    with (run_step r cx st6 Calls.extract_branch_name).
  destruct (extract_branch_sets st6 E6) as (E7 & C7 & O7). cbv zeta in E7, C7, O7.
  set (st7 := run_step r cx st6 Calls.extract_branch_name) in *.
  destruct (run_quiet_steps r cx Hr (submit_steps ++ [print_test_logs]) st7 eq_refl E7)
    as (E11 & O11 & C11). cbv zeta in E11, O11, C11.
  set (st11 := fold_left (run_step r cx) (submit_steps ++ [print_test_logs]) st7) in *.
  change (fold_left (run_step r cx) [get_exit_status; check_success_failure] st11)
    with (run_step r cx (run_step r cx st11 get_exit_status) check_success_failure).
  destruct (RunFacts.get_exit_status_reads r sec inp gh nd pv g Hr st11 E11) as (E12 & _ & _).
  cbv zeta in E12.
  erewrite RunFacts.run_step_uses_commands; [|exact E12|reflexivity].
  rewrite (RunFacts.run_step_commands r cx st11 get_exit_status E11).
  change (RunFacts.contribution cx (outputs st11) get_exit_status)
    with (@nil (string * list string)).
  rewrite app_nil_r, C11, C7, C6, O7, O6. reflexivity.
Qed.

(** With every step itself succeeding, the submissions run for a matrix
    entry are, in this order, those of the keywords its test-group name
    holds, each with exactly this command line; [--branch] carries the ref
    that the branch step stripped of [refs/heads/]. *)
Lemma submitted_command_lines :
  submitted (run_job r cx execute_tests) =
  ((if RunFacts.has g "cpu"
    then [("Submit CPU tests to AzureML", line "cpu-cluster" [])] else []) ++
   (if RunFacts.has g "gpu"
    then [("Submit GPU tests to AzureML", line "gpu-cluster" ["--add_gpu_dependencies"])]
    else []) ++
   (if RunFacts.has g "spark"
    then [("Submit PySpark tests to AzureML", line "cpu-cluster" ["--add_spark_dependencies"])]
    else []))%list.
Proof.
  unfold submitted. rewrite commands_of_run.
  cbn [flat_map submit_steps app]. rewrite line_cpu, line_gpu, line_spark.
  rewrite List.filter_app.
  match goal with
  | |- (List.filter ?f ?l ++ _)%list = _ =>
      replace (List.filter f l) with (@nil (string * list string))
        by (vm_compute; reflexivity)
  end.
  cbn [app]. rewrite app_nil_r.
  destruct (RunFacts.has g "cpu"), (RunFacts.has g "gpu"), (RunFacts.has g "spark");
    reflexivity.
Qed.
(** The same lines, found by the names of the steps that ran them. *)
Lemma named_command_lines :
  List.filter (fun c => Calls.submits c.1) (commands (run_job r cx execute_tests)) =
  ((if RunFacts.has g "cpu"
    then [("Submit CPU tests to AzureML", line "cpu-cluster" [])] else []) ++
   (if RunFacts.has g "gpu"
    then [("Submit GPU tests to AzureML", line "gpu-cluster" ["--add_gpu_dependencies"])]
    else []) ++
   (if RunFacts.has g "spark"
    then [("Submit PySpark tests to AzureML", line "cpu-cluster" ["--add_spark_dependencies"])]
    else []))%list.
Proof.
  rewrite commands_of_run.
  cbn [flat_map submit_steps app]. rewrite line_cpu, line_gpu, line_spark.
  rewrite List.filter_app.
  match goal with
  | |- (List.filter ?f ?l ++ _)%list = _ =>
      replace (List.filter f l) with (@nil (string * list string))
        by (vm_compute; reflexivity)
  end.
  cbn [app]. rewrite app_nil_r.
  destruct (RunFacts.has g "cpu"), (RunFacts.has g "gpu"), (RunFacts.has g "spark");
    reflexivity.
Qed.
End ExecuteTests.

(** X1: with every step of [execute-tests] itself succeeding, each submission
    that runs has exactly the command line [line]: the script with the
    cluster, the subscription, the repository name, the branch, the
    resource group, the workspace, the experiment name made of EXP_NAME and
    the test group, the log file, the dependency flag of the step, the test
    kind, the Python package and the test group. The branch is the ref of
    the run without its [refs/heads/] prefix, as the branch step stored it. *)
Theorem submissions_run_these_lines r sec inp gh nd pv g :
  all_succeed r ->
  let l := Calls.line r sec inp pv g in
  submitted (run_job r (RunFacts.entry sec inp gh nd pv g) execute_tests) =
  ((if RunFacts.has g "cpu"
    then [("Submit CPU tests to AzureML", l "cpu-cluster" [])] else []) ++
   (if RunFacts.has g "gpu"
    then [("Submit GPU tests to AzureML", l "gpu-cluster" ["--add_gpu_dependencies"])]
    else []) ++
   (if RunFacts.has g "spark"
    then [("Submit PySpark tests to AzureML", l "cpu-cluster" ["--add_spark_dependencies"])]
    else []))%list /\
  (forall cluster deps,
     nth_error (l cluster deps) 8 = Some "--branch" /\
     nth_error (l cluster deps) 9 =
       Some (Text.remove_prefix "refs/heads/" (getenv r "GITHUB_REF"))) /\
  (forall b, Text.remove_prefix "refs/heads/" ("refs/heads/" ++ b) = b).
Proof.
  intros Hr l. split; [exact (submitted_command_lines r sec inp gh nd pv g Hr)|].
  split; [intros; split; reflexivity|]. reflexivity.
Qed.

Lemma submissions_run_these_lines_witness :
  submitted
    (run_job (RunFacts.quiet "0")
       (RunFacts.entry {["AZUREML_TEST_SUBID" := "sub"]}
          {["EXP_NAME" := "nightly_tests"; "TEST_KIND" := "nightly"]} ∅ ∅
          "3.8" "group_gpu_001")
       execute_tests) =
  [ ("Submit GPU tests to AzureML",
     [ "python"; submit_script; "--clustername"; "gpu-cluster"; "--subid"; "sub";
       "--reponame"; Text.quoted "recommenders"; "--branch"; "staging";
       "--rg"; "recommenders_project_resources"; "--wsname"; "azureml-test-workspace";
       "--expname"; "nightly_tests_group_gpu_001";
       "--testlogs"; Text.quoted "test_logs.log"; "--add_gpu_dependencies";
       "--testkind"; "nightly"; "--conda_pkg_python"; "3.8";
       "--testgroup"; "group_gpu_001" ]) ].
Proof.
  rewrite (proj1 (submissions_run_these_lines (RunFacts.quiet "0")
                    {["AZUREML_TEST_SUBID" := "sub"]}
                    {["EXP_NAME" := "nightly_tests"; "TEST_KIND" := "nightly"]} ∅ ∅
                    "3.8" "group_gpu_001" (RunFacts.quiet_succeeds "0"))).
  vm_compute. reflexivity.
Defined.

(** C8: the test-submission steps of the workflows are the three [Submit]
    steps of [azureml-tests] ([azureml-gpu-nightly] runs no command for it:
    its steps call actions). With every step itself succeeding, each of
    them that runs executes [submit_groupwise_azureml_pytest.py] with
    [--clustername], [--subid], [--rg], [--wsname], [--expname] and
    [--testgroup] and their values; the exit status comes back through the
    file named by [PYTEST_EXIT_CODE]: its text is the output [code] of the
    exit-status step at the end of the run, and an exit code written there
    makes the run succeed exactly when it is 0. *)
Theorem submissions_pass_six_parameters r sec inp gh nd pv g :
  all_succeed r ->
  let st := run_job r (RunFacts.entry sec inp gh nd pv g) execute_tests in
  let submission (n cluster : string) (deps : list string) :=
    (n,
     [ "python"; "tests/ci/azureml_tests/submit_groupwise_azureml_pytest.py";
       "--clustername"; cluster;
       "--subid"; to_string (of_lookup (sec !! "AZUREML_TEST_SUBID"));
       "--reponame"; Text.quoted "recommenders";
       "--branch"; Text.remove_prefix "refs/heads/" (getenv r "GITHUB_REF");
       "--rg"; "recommenders_project_resources";
       "--wsname"; "azureml-test-workspace";
       "--expname"; (to_string (of_lookup (inp !! "EXP_NAME")) ++ "_" ++ g)%string;
       "--testlogs"; Text.quoted "test_logs.log" ] ++
     deps ++
     [ "--testkind"; to_string (of_lookup (inp !! "TEST_KIND"));
       "--conda_pkg_python"; pv;
       "--testgroup"; g ])%list in
  List.map step_name
    (List.filter (fun s => Calls.submits (step_name s))
       (all_steps azureml_tests ++ all_steps azureml_gpu_nightly)) =
    [ "Submit CPU tests to AzureML"; "Submit GPU tests to AzureML";
      "Submit PySpark tests to AzureML" ] /\
  List.map (fun s => (step_name s, Calls.uses_of s)) (all_steps azureml_gpu_nightly) =
    [ ("Check out repository code", Some "actions/checkout@v4");
      ("Get test group names", Some "./.github/actions/get-test-groups");
      ("Print test group names", None);
      ("Check out repository code", Some "actions/checkout@v4");
      ("Execute tests", Some "./.github/actions/azureml-test") ] /\
  List.filter (fun c => Calls.submits c.1) (commands st) =
    ((if RunFacts.has g "cpu"
      then [submission "Submit CPU tests to AzureML" "cpu-cluster" []] else []) ++
     (if RunFacts.has g "gpu"
      then [submission "Submit GPU tests to AzureML" "gpu-cluster"
              ["--add_gpu_dependencies"]]
      else []) ++
     (if RunFacts.has g "spark"
      then [submission "Submit PySpark tests to AzureML" "cpu-cluster"
              ["--add_spark_dependencies"]]
      else []))%list /\
  assoc "PYTEST_EXIT_CODE" (wf_env azureml_tests) = Some "pytest_exit_code.log" /\
  outputs st !! ("exit_status", "code") = Some (read_file r "pytest_exit_code.log") /\
  (forall z, read_file r "pytest_exit_code.log" = Text.of_Z z -> ok st = (z =? 0)%Z).
Proof.
  intros Hr st submission. subst st submission.
  split; [reflexivity|]. split; [reflexivity|].
  split; [exact (named_command_lines r sec inp gh nd pv g Hr)|].
  split; [reflexivity|].
  split; [exact (RunFacts.exit_code_is_read r sec inp gh nd pv g Hr)|].
  intros z Hz.
  destruct (RunFacts.exit_code_decides r sec inp gh nd pv g Hr) as [E _].
  cbv zeta in E. now rewrite E, Hz, NumberFacts.parse_of_Z_zero.
Qed.

Lemma submissions_pass_six_parameters_witness :
  List.map (fun c => (c.1, firstn 4 c.2))
    (List.filter (fun c => Calls.submits c.1)
       (commands
          (run_job (RunFacts.quiet "0")
             (RunFacts.entry ∅ ∅ ∅ ∅ "3.8" "group_gpu_001") execute_tests))) =
  [ ("Submit GPU tests to AzureML",
     ["python"; submit_script; "--clustername"; "gpu-cluster"]) ].
Proof.
  rewrite (proj1 (proj2 (proj2
    (submissions_pass_six_parameters (RunFacts.quiet "0") ∅ ∅ ∅ ∅ "3.8" "group_gpu_001"
       (RunFacts.quiet_succeeds "0"))))).
  vm_compute. reflexivity.
Defined.
End LineFacts.

(** ** More on the notebook *)

Module RunsFacts.
Import Notebook.

Section Runs.
Context {Dataset Model : Type}.
Variable lib : Library Dataset Model.

Section Parameters.
Variable size : string.
Variables top_k factors epochs : Z.

Definition final_with : kernel Dataset Model :=
  Eval vm_compute in
    match Runs.run_with lib size top_k factors epochs with
    | inr k => k
    | inl _ => fresh
    end.

Lemma run_with_final : Runs.run_with lib size top_k factors epochs = inr final_with.
Proof. vm_compute. reflexivity. Qed.

(** X8: the cells after the parameters cell read the four parameters by name:
    in a run that binds them again after that cell, the table is loaded in
    the new size, the model is built with the new [k] and [max_iter], and
    the four metrics are computed at the new cutoff. *)
Theorem parameters_take_effect :
  exists k,
    Runs.run_with lib size top_k factors epochs = inr k /\
    List.map (fun e => keyword "size" (kwargs e)) (calls_of Fn.load_pandas_df (trace k)) =
      [Some (VStr size)] /\
    List.map (fun e => (keyword "k" (kwargs e), keyword "max_iter" (kwargs e)))
      (calls_of Fn.BPR (trace k)) = [(Some (VInt factors), Some (VInt epochs))] /\
    List.map (fun e => keyword "k" (kwargs e))
      (List.filter (fun e => is_metric (fn e)) (trace k)) =
      [Some (VInt top_k); Some (VInt top_k); Some (VInt top_k); Some (VInt top_k)] /\
    globals k !! "bpr" =
      Some (VModel
              (fit lib (BPR lib factors epochs 0.01 0.001 true (SEED lib))
                 (from_uir lib
                    (rows (python_random_split lib
                             (load_pandas_df lib size ["userID"; "itemID"; "rating"])
                             0.75).1)
                    (SEED lib)))).
Proof.
  exists final_with. split; [exact run_with_final|].
  repeat split; vm_compute; reflexivity.
Qed.
End Parameters.

(** X9: leaving out a cell that binds a name makes the first later cell that
    reads the name raise [NameError]; leaving out one of the two cells that
    only display or record changes nothing for the others. *)
Theorem cells_depend_on_earlier_cells :
  List.map (fun i => Runs.failure (Runs.run_without lib i)) [0; 1; 2; 3; 4; 5; 7; 9] =
    List.map (fun n => Some (NameError n))
      [ "movielens"; "MOVIELENS_DATA_SIZE"; "data"; "train"; "train_set"; "bpr";
        "all_predictions"; "eval_map" ] /\
  List.map (fun i => Runs.failure (Runs.run_without lib i)) [8; 10] = [None; None].
Proof. split; vm_compute; reflexivity. Qed.

(** X10: the seed: [SEED] is passed to [Dataset.from_uir] and to [BPR] and to
    no other call; the split is called with the table and the ratio only. *)
Theorem seed_reaches_two_calls :
  List.map (fun e => (fn e, keyword "seed" (kwargs e)))
    (List.filter (fun e => bool_decide (is_Some (keyword "seed" (kwargs e))))
       (trace (NotebookFacts.final lib))) =
    [ (Fn.from_uir, Some (VInt (SEED lib))); (Fn.BPR, Some (VInt (SEED lib))) ] /\
  List.map (fun e => (args e, kwargs e))
    (calls_of Fn.python_random_split (trace (NotebookFacts.final lib))) =
    [ ([VFrame (NotebookFacts.data lib); VFloat 0.75], []) ].
Proof. split; vm_compute; reflexivity. Qed.

(** X11: the prediction is made by the model that [fit] has trained on the
    dataset built from the rows of [train], and it is asked to remove what
    is seen in that same table [train]. *)
Theorem prediction_uses_the_fitted_model :
  calls_of Fn.recommend_k_items (trace (NotebookFacts.final lib)) =
    [ {| fn := Fn.recommend_k_items;
         self := Some (VModel (NotebookFacts.fitted lib));
         args := [VFrame (NotebookFacts.train lib)];
         kwargs := [ ("col_user", VStr "userID"); ("col_item", VStr "itemID");
                     ("remove_seen", VBool true) ];
         result := VFrame (NotebookFacts.all_predictions lib) |} ] /\
  List.map (fun e => (self e, args e)) (calls_of Fn.fit (trace (NotebookFacts.final lib))) =
    [ (Some (VModel (NotebookFacts.bpr lib)), [VDataset (NotebookFacts.train_set lib)]) ] /\
  List.map (fun e => args e) (calls_of Fn.from_uir (trace (NotebookFacts.final lib))) =
    [ [VRows (rows (NotebookFacts.train lib))] ] /\
  globals (NotebookFacts.final lib) !! "bpr" = Some (VModel (NotebookFacts.fitted lib)).
Proof. repeat split; vm_compute; reflexivity. Qed.
(** X12: what the last cell records: [store_metadata] is called four times,
    under the names [map], [ndcg], [precision] and [recall], each time with
    the number the metric of that name returned. *)
Theorem recorded_values_are_the_metric_results :
  List.map (fun e => (args e, kwargs e))
    (calls_of Fn.store_metadata (trace (NotebookFacts.final lib))) =
  List.map (fun p => ([VStr p.1; p.2], []))
    (zip ["map"; "ndcg"; "precision"; "recall"]
       (List.map result
          (List.filter (fun e => is_metric (fn e)) (trace (NotebookFacts.final lib))))).
Proof. vm_compute. reflexivity. Qed.
End Runs.
End RunsFacts.
